(** * HallmasterAPI: booking collation and tiered search

    A shallow embedding of [hallmasterapi.py]: the collation loop of
    [HallmasterAPI.get_bookings] and the matching loops of
    [HallmasterAPI.search], with the properties stated about them.

    Modelling choices.
    - Python [str] values are modelled as [string] over 8-bit characters;
      [str.lower], [str.upper] and the regular-expression class [\w] act on
      the ASCII letters, digits and underscore and leave every other
      character alone.
    - The JSON fields [title], [start], [end] and [color] of a raw entry are
      strings (the code never parses the timestamps); [Id] is an integer.
    - [self.rooms_info] is a [dict] used as a map: a [gmap string RoomInfo].
      [collated_entries] is a [dict] whose insertion order is observable
      through [list(collated_entries.values())]: an association list.
    - [requests.get] is the only effect.  What [get_description] reads off
      the booking page of an id is given by a function [description_page]
      (the remote service does not change during a call), and every call
      is recorded in a trace of requested ids.  The answer of [GetBookings]
      is the list of raw entries the functions start from. *)

From Stdlib Require Import ZArith Ascii String.
From stdpp Require Import base option list gmap strings.

Local Open Scope string_scope.
Local Open Scope list_scope.
Local Open Scope Z_scope.

(** ** Python string operations *)

Module PyStr.

Definition is_upper (c : ascii) : bool :=
  let n := N_of_ascii c in (65 <=? n)%N && (n <=? 90)%N.

Definition is_lower (c : ascii) : bool :=
  let n := N_of_ascii c in (97 <=? n)%N && (n <=? 122)%N.

Definition is_digit (c : ascii) : bool :=
  let n := N_of_ascii c in (48 <=? n)%N && (n <=? 57)%N.

(** The class [\w]. *)
Definition is_word (c : ascii) : bool :=
  is_upper c || is_lower c || is_digit c || (N_of_ascii c =? 95)%N.

Definition lower_char (c : ascii) : ascii :=
  if is_upper c then ascii_of_N (N_of_ascii c + 32) else c.

Definition upper_char (c : ascii) : ascii :=
  if is_lower c then ascii_of_N (N_of_ascii c - 32) else c.

(** [s.lower()] *)
Fixpoint lower (s : string) : string :=
  match s with
  | EmptyString => EmptyString
  | String c r => String (lower_char c) (lower r)
  end.

(** [s.upper()] *)
Fixpoint upper (s : string) : string :=
  match s with
  | EmptyString => EmptyString
  | String c r => String (upper_char c) (upper r)
  end.

(** [needle in hay] *)
Fixpoint contains (needle hay : string) : bool :=
  if String.prefix needle hay then true
  else match hay with
       | EmptyString => false
       | String _ r => contains needle r
       end.

(** [not s]: the empty string is the only falsy string. *)
Definition falsy (s : string) : bool :=
  match s with
  | EmptyString => true
  | String _ _ => false
  end.

(** [''.join(re.findall(r'\b\w', s))].  A position matches [\b\w] when it
    holds a word character and the position before it (if any) does not;
    [prev] tells whether the previous character was a word character. *)
Fixpoint findall_word_starts (prev : bool) (s : string) : string :=
  match s with
  | EmptyString => EmptyString
  | String c r =>
      if is_word c && negb prev
      then String c (findall_word_starts true r)
      else findall_word_starts (is_word c) r
  end.

End PyStr.

(** [acronym = ''.join(re.findall(r'\b\w', term)).upper()] *)
Definition acronym (term : string) : string :=
  PyStr.upper (PyStr.findall_word_starts false term).

(** The acronym as the specification words it: split the term into its
    word tokens (the maximal runs of word characters) and take the
    uppercased first character of each, in order. *)
Module AcronymSpec.

(** [cur] is the token being read, if any. *)
Fixpoint tokens_go (cur : option string) (s : string) : list string :=
  match s with
  | EmptyString =>
      match cur with
      | None => []
      | Some w => [w]
      end
  | String c r =>
      if PyStr.is_word c
      then tokens_go (Some (default EmptyString cur +:+ String c EmptyString)) r
      else match cur with
           | None => tokens_go None r
           | Some w => w :: tokens_go None r
           end
  end.

Definition word_tokens (s : string) : list string := tokens_go None s.

(** A word token: a non-empty run of word characters. *)
Fixpoint all_word (w : string) : bool :=
  match w with
  | EmptyString => true
  | String c r => PyStr.is_word c && all_word r
  end.

Definition is_token (w : string) : Prop := w ≠ EmptyString ∧ all_word w = true.




End AcronymSpec.

(** ** Data model *)

(** A value of [rooms_info]: [{"id": room_id, "name": div.text, "colour": colour}]. *)
Record RoomInfo := {
  room_id : Z;
  room_name : string;
  room_colour : string
}.

(** One element of the JSON array answered by [GetBookings]. *)
Record RawBooking := {
  raw_Id : Z;
  raw_title : string;
  raw_start : string;
  raw_end : string;
  raw_color : string
}.

(** [class Booking]; [end] is a keyword here, hence [end_]. *)
Record Booking := {
  id : Z;
  title : string;
  start : string;
  end_ : string;
  rooms : list string;
  description : string
}.

(** [item.description = desc] *)
Definition set_description (desc : string) (b : Booking) : Booking :=
  {| id := id b; title := title b; start := start b; end_ := end_ b;
     rooms := rooms b; description := desc |}.

(** [item.rooms.append(room)] *)
Definition append_room (room : string) (b : Booking) : Booking :=
  {| id := id b; title := title b; start := start b; end_ := end_ b;
     rooms := rooms b ++ [room]; description := description b |}.

(** ** Insertion-ordered dictionaries *)

Module Dict.
Section Dict.
Context {K V : Type} `{EqDecision K}.

Definition t := list (K * V).

(** [k in d.keys()] *)
Fixpoint mem (k : K) (d : t) : bool :=
  match d with
  | [] => false
  | (k', _) :: r => if decide (k = k') then true else mem k r
  end.

(** [d[k] = v]: an existing key keeps its position, a new key goes last. *)
Fixpoint set (k : K) (v : V) (d : t) : t :=
  match d with
  | [] => [(k, v)]
  | (k', v') :: r =>
      if decide (k = k') then (k, v) :: r else (k', v') :: set k v r
  end.

(** In-place mutation of the object stored under [k]. *)
Fixpoint alter (f : V -> V) (k : K) (d : t) : t :=
  match d with
  | [] => []
  | (k', v) :: r =>
      if decide (k = k') then (k', f v) :: r else (k', v) :: alter f k r
  end.

(** [list(d.values())] *)
Definition values (d : t) : list V := map snd d.

Definition keys (d : t) : list K := map fst d.
End Dict.
End Dict.

(** ** Effects: a trace of description requests, and [KeyError] *)

Inductive outcome (A : Type) : Type :=
| Ok (a : A)
| KeyError (k : string).
Arguments Ok {A} a.
Arguments KeyError {A} k.

(** A computation reads and extends the trace of booking ids whose
    description page was requested, and either returns or raises. *)
Definition M (A : Type) : Type := list Z -> outcome A * list Z.

Definition ret {A} (a : A) : M A := fun tr => (Ok a, tr).

Definition bind {A B} (c : M A) (k : A -> M B) : M B :=
  fun tr =>
    match c tr with
    | (Ok a, tr') => k a tr'
    | (KeyError e, tr') => (KeyError e, tr')
    end.

Notation "'let*' x ':=' c 'in' k" := (bind c (fun x => k))
  (at level 10, x pattern, c at level 100, k at level 200).

(** [for x in xs: s = body(s, x)] *)
Fixpoint for_each {A S} (body : S -> A -> M S) (xs : list A) (s : S) : M S :=
  match xs with
  | [] => ret s
  | x :: r => let* s' := body s x in for_each body r s'
  end.

Definition key : Type := string * string * string.

Definition reserved_titles : list string :=
  ["Private Booking"; "Provisional Booking"].

Definition key_of_raw (booking : RawBooking) : key :=
  (raw_title booking, raw_start booking, raw_end booking).

Definition key_of (b : Booking) : key := (title b, start b, end_ b).

(** The match lists hold references to the objects of [bookings]; a
    reference is the object's position in that list. *)
Record matches := {
  confident_matches : list nat;
  somewhat_sure_matches : list nat
}.

Definition add_confident (i : nat) (m : matches) : matches :=
  {| confident_matches := confident_matches m ++ [i];
     somewhat_sure_matches := somewhat_sure_matches m |}.

Definition add_somewhat_sure (i : nat) (m : matches) : matches :=
  {| confident_matches := confident_matches m;
     somewhat_sure_matches := somewhat_sure_matches m ++ [i] |}.

(** [search_terms: str | list[str]] *)
Inductive search_terms : Type :=
| Str (term : string)
| Lst (terms : list string).

(** ** Specification-level vocabulary *)

(** The raw entries that are real events: those whose title is not a
    reserved placeholder. *)
Definition real_entries (raw : list RawBooking) : list RawBooking :=
  filter (fun e => raw_title e ∉ reserved_titles) raw.

(** The first occurrence of every distinct element, in order. *)
Fixpoint first_occurrences (ks : list key) : list key :=
  match ks with
  | [] => []
  | k :: r => k :: filter (fun k' => k' ≠ k) (first_occurrences r)
  end.

(** The first entry of every distinct key, in source order. *)
Fixpoint first_entries (entries : list RawBooking) : list RawBooking :=
  match entries with
  | [] => []
  | e :: r =>
      e :: filter (fun e' => key_of_raw e' ≠ key_of_raw e) (first_entries r)
  end.

(** The entries that share the key [k], in source order. *)
Definition same_key (k : key) (entries : list RawBooking) : list RawBooking :=
  filter (fun e => key_of_raw e = k) entries.

(** The two confidence tiers of a search match. *)
Inductive tier : Type := Confident | Possible.

Global Instance tier_eq_dec : EqDecision tier.
Proof. solve_decision. Defined.

(** One discovery: the Booking at position [ref_of] is classified in
    [tier_of]. *)
Record discovery := Discovery {
  tier_of : tier;
  ref_of : nat;
  booking_of : Booking
}.

(** The discoveries of tier [t], in discovery order. *)
Definition of_tier (t : tier) (events : list discovery) : list discovery :=
  filter (fun ev => tier_of ev = t) events.

(** Appending a discovery to the match list of its tier. *)
Definition record_event (m : matches) (ev : discovery) : matches :=
  match tier_of ev with
  | Confident => add_confident (ref_of ev) m
  | Possible => add_somewhat_sure (ref_of ev) m
  end.

(** ** The API object *)

Section HallmasterAPI.

(** [self.rooms_info], built once by the constructor. *)
Variable rooms_info : gmap string RoomInfo.

(** What [get_description] extracts from the booking page of an id. *)
Variable description_page : Z -> string.

(** [self.get_description(booking_id)] *)
Definition get_description (booking_id : Z) : M string :=
  fun tr => (Ok (description_page booking_id), (tr ++ [booking_id])%list).

(** [self.rooms_info[colour]["name"]] *)
Definition room_name_of (colour : string) : M string :=
  fun tr =>
    match rooms_info !! colour with
    | Some r => (Ok (room_name r), tr)
    | None => (KeyError colour, tr)
    end.

(** The body of the loop of [get_bookings]. *)
Definition collate_step (get_desc : bool)
    (collated_entries : Dict.t (K:=key) (V:=Booking)) (booking : RawBooking)
    : M (Dict.t (K:=key) (V:=Booking)) :=
  if bool_decide (raw_title booking ∈ reserved_titles) then ret collated_entries
  else
    let key := key_of_raw booking in
    let* room := room_name_of (raw_color booking) in
    let value :=
      {| id := raw_Id booking; title := raw_title booking;
         start := raw_start booking; end_ := raw_end booking;
         rooms := [room]; description := "" |} in
    let* value :=
      (if get_desc
       then let* desc := get_description (id value) in
            ret (set_description desc value)
       else ret value) in
    if Dict.mem key collated_entries
    then ret (Dict.alter (append_room room) key collated_entries)
    else ret (Dict.set key value collated_entries).

(** [get_bookings], from the decoded JSON array on. *)
Definition get_bookings (bookings : list RawBooking) (get_desc : bool)
    : M (list Booking) :=
  let* collated_entries := for_each (collate_step get_desc) bookings [] in
  ret (Dict.values collated_entries).

(** One pass of the inner loop of [search] over [item], the object at
    position [i]; the boolean tells whether the pass ends in [break]. *)
Definition match_item (term acronym : string) (i : nat) (item : Booking)
    (m : matches) : M (Booking * matches * bool) :=
  if PyStr.contains (PyStr.lower term) (PyStr.lower (title item))
  then
    let* desc := get_description (id item) in
    ret (set_description desc item, add_confident i m, false)
  else
    let* item :=
      (if PyStr.falsy (description item)
       then let* desc := get_description (id item) in
            ret (set_description desc item)
       else ret item) in
    let m :=
      if PyStr.contains (PyStr.lower term) (PyStr.lower (description item))
      then add_somewhat_sure i m else m in
    if PyStr.contains (PyStr.lower acronym) (PyStr.lower (title item))
    then ret (item, add_confident i m, true)
    else if PyStr.contains (PyStr.lower acronym) (PyStr.lower (description item))
    then ret (item, add_somewhat_sure i m, true)
    else ret (item, m, false).

(** [for item in bookings: ...], over the objects from position [i] on. *)
Fixpoint scan (term acronym : string) (i : nat) (items : list Booking)
    (m : matches) : M (list Booking * matches) :=
  match items with
  | [] => ret ([], m)
  | item :: rest =>
      let* (item', m', stop) := match_item term acronym i item m in
      if (stop : bool) then ret (item' :: rest, m')
      else
        let* (rest', m'') := scan term acronym (S i) rest m' in
        ret (item' :: rest', m'')
  end.

(** [for term in search_terms: ...] *)
Fixpoint search_loop (terms : list string) (bookings : list Booking)
    (m : matches) : M (list Booking * matches) :=
  match terms with
  | [] => ret (bookings, m)
  | term :: more =>
      let* (bookings', m') := scan term (acronym term) 0 bookings m in
      search_loop more bookings' m'
  end.

Definition terms_of (st : search_terms) : list string :=
  match st with
  | Str term => [term]
  | Lst terms => terms
  end.

(** The objects a list of references denotes. *)
Definition deref (bookings : list Booking) (refs : list nat) : list Booking :=
  omap (fun i => bookings !! i) refs.

(** [search] over an already collated list: the loops and the final
    concatenation, with the match lists still as references. *)
Definition search_refs (st : search_terms) (bookings : list Booking)
    : M (list Booking * matches) :=
  search_loop (terms_of st) bookings
    {| confident_matches := []; somewhat_sure_matches := [] |}.

Definition search_in (st : search_terms) (bookings : list Booking)
    : M (list Booking) :=
  let* (bookings', m) := search_refs st bookings in
  ret (deref bookings' (confident_matches m ++ somewhat_sure_matches m)).

(** [search], from the decoded JSON array on. *)
Definition search (st : search_terms) (raw : list RawBooking) : M (list Booking) :=
  let* bookings := get_bookings raw false in
  search_in st bookings.

(** *** The collation, as the specification words it *)

(** The room name a raw entry resolves to (for a colour of the registry). *)
Definition resolved_room (e : RawBooking) : string :=
  from_option room_name "" (rooms_info !! raw_color e).

(** The Booking of a key: identity, title and times of its first entry
    [first], the rooms of all the entries that share its key. *)
Definition merged (get_desc : bool) (entries : list RawBooking)
    (first : RawBooking) : Booking :=
  {| id := raw_Id first; title := raw_title first;
     start := raw_start first; end_ := raw_end first;
     rooms := map resolved_room (same_key (key_of_raw first) entries);
     description := if get_desc then description_page (raw_Id first) else "" |}.

Definition collated (get_desc : bool) (entries : list RawBooking) : list Booking :=
  map (merged get_desc entries) (first_entries entries).

(** The dictionary behind [collated]. *)
Definition collated_dict (get_desc : bool) (entries : list RawBooking)
    : Dict.t (K:=key) (V:=Booking) :=
  map (fun first => (key_of_raw first, merged get_desc entries first))
      (first_entries entries).

(** The ids [get_bookings] requests a description for. *)
Definition requested (get_desc : bool) (entries : list RawBooking) : list Z :=
  if get_desc then map raw_Id entries else [].

(** All the colours of the real entries are in the registry. *)
Definition colours_known (raw : list RawBooking) : Prop :=
  Forall (fun e => is_Some (rooms_info !! raw_color e)) (real_entries raw).

(** *** The matching, as the specification words it *)

(** A Booking with its description fetched. *)
Definition fetched (b : Booking) : Booking :=
  set_description (description_page (id b)) b.

(** Steps 1, 2a, 2b and 2c for one Booking and one term: the tiers the
    Booking is classified in, in order, and whether the scan of the term
    stops at this Booking. *)
Definition classify (term : string) (b : Booking) : list tier * bool :=
  let desc := description_page (id b) in
  let acr := acronym term in
  if PyStr.contains (PyStr.lower term) (PyStr.lower (title b))
  then ([Confident], false)
  else
    let possible :=
      if PyStr.contains (PyStr.lower term) (PyStr.lower desc)
      then [Possible] else [] in
    if PyStr.contains (PyStr.lower acr) (PyStr.lower (title b))
    then (possible ++ [Confident], true)
    else if PyStr.contains (PyStr.lower acr) (PyStr.lower desc)
    then (possible ++ [Possible], true)
    else (possible, false).

(** The discoveries of one term over the Bookings from position [i] on,
    in discovery order. *)
Fixpoint discover_term (term : string) (i : nat) (bs : list Booking)
    : list discovery :=
  match bs with
  | [] => []
  | b :: rest =>
      map (fun t => Discovery t i b) (fst (classify term b))
      ++ (if snd (classify term b) then [] else discover_term term (S i) rest)
  end.

(** The discoveries of all the terms, in discovery order. *)
Definition discover (terms : list string) (bs : list Booking) : list discovery :=
  flat_map (fun term => discover_term term 0 bs) terms.

(** The Bookings of tier [t], in discovery order, descriptions fetched. *)
Definition matches_of (t : tier) (terms : list string) (bs : list Booking)
    : list Booking :=
  map (fun ev => fetched (booking_of ev)) (of_tier t (discover terms bs)).




(** The object [item] of the working list is the collated Booking [b],
    with or without its description fetched. *)
Definition tracks (item b : Booking) : Prop :=
  item = b ∨ item = fetched b.

(** The references [search] returns over an already collated list. *)
Definition search_result_refs (st : search_terms) (bookings : list Booking)
    : list nat :=
  match search_refs st bookings [] with
  | (Ok (_, m), _) => confident_matches m ++ somewhat_sure_matches m
  | (KeyError _, _) => []
  end.

End HallmasterAPI.

(** ** Scenarios *)

Module Scenario.

(** The registry [{ "#fff": Hall A, "#000": Hall B }]. *)
Definition registry : gmap string RoomInfo :=
  <["#fff" := {| room_id := 1; room_name := "Hall A"; room_colour := "#fff" |}]>
    (<["#000" := {| room_id := 2; room_name := "Hall B"; room_colour := "#000" |}]> ∅).

Definition yoga_hall_a : RawBooking :=
  {| raw_Id := 1; raw_title := "Yoga"; raw_start := "T1"; raw_end := "T2";
     raw_color := "#fff" |}.

Definition yoga_hall_b : RawBooking :=
  {| raw_Id := 2; raw_title := "Yoga"; raw_start := "T1"; raw_end := "T2";
     raw_color := "#000" |}.

Definition yoga_late : RawBooking :=
  {| raw_Id := 4; raw_title := "Yoga"; raw_start := "T5"; raw_end := "T6";
     raw_color := "#fff" |}.

Definition private : RawBooking :=
  {| raw_Id := 5; raw_title := "Private Booking"; raw_start := "T3";
     raw_end := "T4"; raw_color := "#fff" |}.

Definition yoga_class : RawBooking :=
  {| raw_Id := 7; raw_title := "Yoga class"; raw_start := "T7"; raw_end := "T8";
     raw_color := "#fff" |}.

Definition agm : RawBooking :=
  {| raw_Id := 3; raw_title := "Annual General Meeting"; raw_start := "T1";
     raw_end := "T2"; raw_color := "#000" |}.

(** The description pages of the remote service. *)
Definition pages (booking_id : Z) : string :=
  if booking_id =? 3 then "Members debate the budget" else "weekly class".



Definition agm_booking : Booking :=
  {| id := 3; title := "Annual General Meeting"; start := "T1"; end_ := "T2";
     rooms := ["Hall B"]; description := "" |}.


Definition hall_a : RoomInfo :=
  {| room_id := 1; room_name := "Hall A"; room_colour := "#fff" |}.

Definition hall_b : RoomInfo :=
  {| room_id := 2; room_name := "Hall B"; room_colour := "#000" |}.

(** The raw entries of one request, in source order. *)
Definition week : list RawBooking :=
  [yoga_hall_a; private; agm; yoga_hall_b; yoga_late].

(** What [get_bookings] answers for [week] with [get_desc] set. *)
Definition week_collated : list Booking :=
  [ {| id := 1; title := "Yoga"; start := "T1"; end_ := "T2";
       rooms := ["Hall A"; "Hall B"]; description := "weekly class" |};
    {| id := 3; title := "Annual General Meeting"; start := "T1"; end_ := "T2";
       rooms := ["Hall B"]; description := "Members debate the budget" |};
    {| id := 4; title := "Yoga"; start := "T5"; end_ := "T6";
       rooms := ["Hall A"]; description := "weekly class" |} ].

(** What [get_bookings] answers for [week] without [get_desc]. *)
Definition week_plain : list Booking :=
  [ {| id := 1; title := "Yoga"; start := "T1"; end_ := "T2";
       rooms := ["Hall A"; "Hall B"]; description := "" |};
    {| id := 3; title := "Annual General Meeting"; start := "T1"; end_ := "T2";
       rooms := ["Hall B"]; description := "" |};
    {| id := 4; title := "Yoga"; start := "T5"; end_ := "T6";
       rooms := ["Hall A"]; description := "" |} ].

(** What [get_bookings] answers for the two Yoga entries of one slot. *)
Definition yoga_collated : list Booking :=
  [ {| id := 1; title := "Yoga"; start := "T1"; end_ := "T2";
       rooms := ["Hall A"; "Hall B"]; description := "" |} ].

End Scenario.

(** ** Two statements the code does not satisfy as they are worded *)


(** A Booking titled "Annual General Meeting" whose description holds
    neither "AGM" nor "board" is in the result of [search(["board"])]
    exactly when "board" occurs in its description. *)
Definition agm_matches_board_only_literally : Prop :=
  ∀ (pages : Z → string) (bs : list Booking) (i : nat) (b : Booking),
    Forall (fun b => description b = "") bs →
    bs !! i = Some b →
    title b = "Annual General Meeting" →
    PyStr.contains "AGM" (pages (id b)) = false →
    PyStr.contains "board" (pages (id b)) = false →
    (i ∈ search_result_refs pages (Lst ["board"]) bs
     ↔ PyStr.contains "board" (pages (id b)) = true).

(** ** Further definitions *)

(** The matches [search] ends with over an already collated list. *)
Definition search_matches (pages : Z → string) (st : search_terms)
    (bookings : list Booking) : matches :=
  match search_refs pages st bookings [] with
  | (Ok (_, m), _) => m
  | (KeyError _, _) => {| confident_matches := []; somewhat_sure_matches := [] |}
  end.

(** Further scenarios. *)
Module Cases.

(** An entry whose colour no room of [Scenario.registry] has. *)
Definition stranger : RawBooking :=
  {| raw_Id := 8; raw_title := "Choir"; raw_start := "T9"; raw_end := "T10";
     raw_color := "#0f0" |}.

(** A placeholder entry in a colour no room has. *)
Definition blocked : RawBooking :=
  {| raw_Id := 9; raw_title := "Provisional Booking"; raw_start := "T9";
     raw_end := "T10"; raw_color := "#00f" |}.

End Cases.


Module Cases2.


(** The head and the rest of [Scenario.week_plain]. *)
Definition week_head : Booking :=
  {| id := 1; title := "Yoga"; start := "T1"; end_ := "T2";
     rooms := ["Hall A"; "Hall B"]; description := "" |}.


End Cases2.

(** *** [format_date] *)

(** A [datetime]: the six fields the wire format prints, and the two it
    does not (microseconds and the offset of an aware value). *)
Record datetime := {
  year : Z;
  month : Z;
  day : Z;
  hour : Z;
  minute : Z;
  second : Z;
  microsecond : Z;
  utcoffset : option Z
}.

Definition digit (n : Z) : ascii := ascii_of_N (Z.to_N (48 + n mod 10)).

(** [%m], [%d], [%H], [%M], [%S]: two digits, zero-padded. *)
Definition two_digits (n : Z) : string :=
  String (digit (n / 10)) (String (digit n) EmptyString).

(** [%Y]: four digits (for the years from 1000 on every platform prints
    four; below 1000 the padding depends on the platform). *)
Definition four_digits (n : Z) : string :=
  String (digit (n / 1000)) (String (digit (n / 100)) (two_digits n)).

(** [date.strftime("%Y-%m-%dT%H:%M:%S+00:00")] *)
Definition format_date (date : datetime) : string :=
  four_digits (year date) +:+ "-" +:+ two_digits (month date) +:+ "-"
  +:+ two_digits (day date) +:+ "T" +:+ two_digits (hour date) +:+ ":"
  +:+ two_digits (minute date) +:+ ":" +:+ two_digits (second date) +:+ "+00:00".

(** The ranges of the fields of a [datetime], from the year 1000 on. *)
Definition in_range (date : datetime) : Prop :=
  1000 <= year date <= 9999
  ∧ 1 <= month date <= 12
  ∧ 1 <= day date <= 31
  ∧ 0 <= hour date < 24
  ∧ 0 <= minute date < 60
  ∧ 0 <= second date < 60.

Module Dates.

Definition morning : datetime :=
  {| year := 2026; month := 11; day := 4; hour := 9; minute := 5; second := 0;
     microsecond := 0; utcoffset := None |}.

(** The same wall-clock second, with microseconds, in another zone. *)
Definition morning_in_paris : datetime :=
  {| year := 2026; month := 11; day := 4; hour := 9; minute := 5; second := 0;
     microsecond := 250000; utcoffset := Some 3600 |}.

End Dates.

(** *** [get_description]: the text once the page is parsed *)

(** [c.isspace()], for the code points below 256. *)
Definition is_space (c : ascii) : bool :=
  let n := N_of_ascii c in
  ((9 <=? n)%N && (n <=? 13)%N) || ((28 <=? n)%N && (n <=? 32)%N)
  || (n =? 133)%N || (n =? 160)%N.

Fixpoint lstrip (s : string) : string :=
  match s with
  | EmptyString => EmptyString
  | String c r => if is_space c then lstrip r else s
  end.

Fixpoint rstrip (s : string) : string :=
  match s with
  | EmptyString => EmptyString
  | String c r =>
      match rstrip r with
      | EmptyString => if is_space c then EmptyString else String c EmptyString
      | String c' r' => String c (String c' r')
      end
  end.

(** [s.strip()] *)
Definition strip (s : string) : string := rstrip (lstrip s).

Fixpoint all_space (s : string) : bool :=
  match s with
  | EmptyString => true
  | String c r => is_space c && all_space r
  end.

(** What [get_description] computes from the parsed page: [field] is the
    text of the first [div] beside the label [for="Description"], if the
    page has that label.  (A label without such a [div] makes the call
    raise; those pages are outside [description_page].) *)
Definition description_of (field : option string) : string :=
  match field with
  | Some text => strip text
  | None => " "
  end.

(** *** [get_rooms_info]: from the elements of the colour list on *)

Inductive py_error : Type := AttributeError | IndexError | StyleKeyError.

Inductive py_result (A : Type) : Type :=
| Returns (a : A)
| Raises (e : py_error).
Arguments Returns {A} a.
Arguments Raises {A} e.

(** One element [find_all(onclick=True)] yields: its [onclick] attribute,
    its [style] attribute if it has one, and its text. *)
Record room_div := {
  onclick : string;
  style : option string;
  div_text : string
}.

(** The longest run of characters of the class [cls] at the start of [s],
    and what follows it. *)
Fixpoint span (cls : ascii → bool) (s : string) : string * string :=
  match s with
  | EmptyString => (EmptyString, EmptyString)
  | String c r =>
      if cls c
      then let (run, rest) := span cls r in (String c run, rest)
      else (EmptyString, s)
  end.

(** [s] without its prefix [lit], when it has that prefix. *)
Fixpoint drop_prefix (lit s : string) : option string :=
  match lit with
  | EmptyString => Some s
  | String a lit' =>
      match s with
      | EmptyString => None
      | String b s' => if Ascii.eqb a b then drop_prefix lit' s' else None
      end
  end.

(** The group of a match of the pattern [before (cls+) after] at the
    start of [s].  The patterns of the code have an [after] whose first
    character is not in [cls], so the greedy run is the only candidate. *)
Definition match_here (before : string) (cls : ascii → bool) (after s : string)
    : option string :=
  match drop_prefix before s with
  | None => None
  | Some s1 =>
      let (run, rest) := span cls s1 in
      if PyStr.falsy run then None
      else if String.prefix after rest then Some run else None
  end.

(** [re.findall(pattern, s)[0]] when there is a match: the group of the
    leftmost one. *)
Fixpoint first_match (before : string) (cls : ascii → bool) (after s : string)
    : option string :=
  match match_here before cls after s with
  | Some g => Some g
  | None =>
      match s with
      | EmptyString => None
      | String _ r => first_match before cls after r
      end
  end.

(** [int(ds)] for a run of decimal digits. *)
Fixpoint int_of_digits (acc : Z) (ds : string) : Z :=
  match ds with
  | EmptyString => acc
  | String c r => int_of_digits (10 * acc + (Z.of_N (N_of_ascii c) - 48)) r
  end.

(** The class [[a-fA-F0-9]]. *)
Definition is_hex (c : ascii) : bool :=
  let n := N_of_ascii c in
  PyStr.is_digit c || ((97 <=? n)%N && (n <=? 102)%N)
  || ((65 <=? n)%N && (n <=? 70)%N).

(** [int(re.findall(r"setRoom\((\d+)\)", onclick)[0])] *)
Definition room_id_of (onclick : string) : py_result Z :=
  match first_match "setRoom(" PyStr.is_digit ")" onclick with
  | Some ds => Returns (int_of_digits 0 ds)
  | None => Raises IndexError
  end.

(** [re.findall(r"background-color:(#[a-fA-F0-9]+)!important;", style)[0]] *)
Definition colour_of (style : string) : py_result string :=
  match first_match "background-color:#" is_hex "!important;" style with
  | Some hex => Returns (String "#" hex)
  | None => Raises IndexError
  end.

(** The body of the loop of [get_rooms_info], up to the assignment. *)
Definition room_of_div (div : room_div) : py_result RoomInfo :=
  match room_id_of (onclick div) with
  | Raises e => Raises e
  | Returns room_id =>
      match style div with
      | None => Raises StyleKeyError
      | Some st =>
          match colour_of st with
          | Raises e => Raises e
          | Returns colour =>
              Returns {| room_id := room_id; room_name := div_text div;
                         room_colour := colour |}
          end
      end
  end.

(** [for div in ...: rooms_info[colour] = {...}] *)
Fixpoint fill_rooms_info (divs : list room_div) (rooms_info : gmap string RoomInfo)
    : py_result (gmap string RoomInfo) :=
  match divs with
  | [] => Returns rooms_info
  | div :: rest =>
      match room_of_div div with
      | Raises e => Raises e
      | Returns info => fill_rooms_info rest (<[room_colour info := info]> rooms_info)
      end
  end.

(** [get_rooms_info], from [colour_list = soup.find(id="RoomColorList")]
    on: [None] when the page has no such element, else the elements of
    [colour_list.find_all(onclick=True)]. *)
Definition get_rooms_info (colour_list : option (list room_div))
    : py_result (gmap string RoomInfo) :=
  match colour_list with
  | None => Raises AttributeError
  | Some divs => fill_rooms_info divs ∅
  end.

Module Rooms.

Definition main_hall : room_div :=
  {| onclick := "setRoom(101)";
     style := Some "background-color:#fff!important;"; div_text := "Main Hall" |}.

Definition annexe : room_div :=
  {| onclick := "javascript:setRoom(7); return false";
     style := Some "width:10px;background-color:#12aB9f!important;color:red";
     div_text := "Annexe" |}.

(** A second element painted in the colour of [main_hall]. *)
Definition stage : room_div :=
  {| onclick := "setRoom(102)";
     style := Some "background-color:#fff!important;"; div_text := "Stage" |}.

Definition unstyled : room_div :=
  {| onclick := "setRoom(9)"; style := None; div_text := "Kitchen" |}.

Definition show_all : room_div :=
  {| onclick := "showAll()";
     style := Some "background-color:#000!important;"; div_text := "All rooms" |}.

Definition main_hall_info : RoomInfo :=
  {| room_id := 101; room_name := "Main Hall"; room_colour := "#fff" |}.

Definition annexe_info : RoomInfo :=
  {| room_id := 7; room_name := "Annexe"; room_colour := "#12aB9f" |}.

Definition stage_info : RoomInfo :=
  {| room_id := 102; room_name := "Stage"; room_colour := "#fff" |}.

Definition gala : RawBooking :=
  {| raw_Id := 20; raw_title := "Gala"; raw_start := "T1"; raw_end := "T2";
     raw_color := "#fff" |}.

Definition gala_annexe : RawBooking :=
  {| raw_Id := 21; raw_title := "Gala"; raw_start := "T1"; raw_end := "T2";
     raw_color := "#12aB9f" |}.

End Rooms.

(** Every character of [s] is in the class [cls]. *)
Fixpoint all_chars (cls : ascii → bool) (s : string) : bool :=
  match s with
  | EmptyString => true
  | String c r => cls c && all_chars cls r
  end.

(** The strings the pattern [before (cls+) after] occurs in, with the
    group of an occurrence. *)
Definition occurs (before : string) (cls : ascii → bool) (after : string)
    (group s : string) : Prop :=
  ∃ pre post,
    s = pre +:+ before +:+ group +:+ after +:+ post
    ∧ group ≠ "" ∧ all_chars cls group = true.



Module Cases3.

(** A service none of whose booking pages has a description label. *)
Definition bare_pages (booking_id : Z) : string := description_of None.

End Cases3.

(** * Properties *)

(** ** Acronyms *)



Lemma all_word_snoc (w : string) (c : ascii) :
  AcronymSpec.all_word (w +:+ String c "") = AcronymSpec.all_word w && PyStr.is_word c.
Proof.
  induction w as [|a w IH]; simpl.
  - now rewrite andb_true_r.
  - now rewrite IH, andb_assoc.
Qed.

(** The tokens are non-empty runs of word characters. *)
Lemma tokens_go_tokens (s : string) (cur : option string) :
  (∀ w, cur = Some w → AcronymSpec.is_token w) →
  Forall AcronymSpec.is_token (AcronymSpec.tokens_go cur s).
Proof.
  revert cur. induction s as [|c r IH]; intros cur Hcur; simpl.
  - destruct cur as [w|]; [|constructor]. constructor; [now apply Hcur | constructor].
  - destruct (PyStr.is_word c) eqn:Hc.
    + apply IH. intros w [= <-]. split.
      * destruct cur as [[|a w]|]; discriminate.
      * rewrite all_word_snoc, Hc, andb_true_r.
        destruct cur as [w|]; [now apply Hcur | reflexivity].
    + destruct cur as [w|].
      * constructor; [now apply Hcur|]. apply IH. discriminate.
      * apply IH. discriminate.
Qed.

Lemma word_tokens_tokens (s : string) :
  Forall AcronymSpec.is_token (AcronymSpec.word_tokens s).
Proof. apply tokens_go_tokens. discriminate. Qed.

Example word_tokens_mixed :
  AcronymSpec.word_tokens "it's the 2nd_hall!" = ["it"; "s"; "the"; "2nd_hall"].
Proof. reflexivity. Qed.


(** ** The effect monad *)

Lemma for_each_app {A S} (body : S → A → M S) (xs ys : list A) (s : S) (tr : list Z) :
  for_each body (xs ++ ys) s tr =
  match for_each body xs s tr with
  | (Ok s', tr') => for_each body ys s' tr'
  | (KeyError e, tr') => (KeyError e, tr')
  end.
Proof.
  revert s tr. induction xs as [|x xs IH]; intros s tr; simpl; [reflexivity|].
  unfold bind. destruct (body s x tr) as [[s'|e] tr']; [apply IH | reflexivity].
Qed.

(** ** Insertion-ordered dictionaries *)

Section DictFacts.
Context {K V : Type} `{EqDecision K}.
Implicit Types (d : Dict.t (K:=K) (V:=V)) (k : K) (v : V).

Lemma dict_mem_keys k d : Dict.mem k d = true ↔ k ∈ Dict.keys d.
Proof.
  induction d as [|[k' v'] d IH]; simpl.
  - split; [discriminate | intros H'; inversion H'].
  - destruct (decide (k = k')) as [->|Hne].
    + split; [intros _; left | reflexivity].
    + rewrite IH. split; [now right | intros H'].
      inversion H'; subst; [congruence | assumption].
Qed.

Lemma dict_set_fresh k v d : k ∉ Dict.keys d → Dict.set k v d = d ++ [(k, v)].
Proof.
  induction d as [|[k' v'] d IH]; simpl; intros Hk; [reflexivity|].
  destruct (decide (k = k')) as [->|Hne].
  - exfalso. apply Hk. left.
  - f_equal. apply IH. intros Hin. apply Hk. now right.
Qed.

(** On a dictionary built from a list with distinct keys, [alter] changes
    the one value stored under the key. *)
Lemma dict_alter_map {X} (f : V → V) k (g : X → K) (h : X → V) (xs : list X) :
  NoDup (map g xs) →
  Dict.alter f k (map (fun x => (g x, h x)) xs)
  = map (fun x => (g x, if decide (k = g x) then f (h x) else h x)) xs.
Proof.
  induction xs as [|x xs IH]; simpl; intros Hnd; [reflexivity|].
  apply NoDup_cons in Hnd as [Hx Hnd].
  destruct (decide (k = g x)) as [->|Hne].
  - f_equal. apply map_ext_in. intros y Hy.
    destruct (decide (g x = g y)) as [Heq|]; [|reflexivity].
    exfalso. apply Hx. rewrite Heq. apply list_elem_of_In.
    apply in_map, Hy.
  - f_equal. apply IH, Hnd.
Qed.
End DictFacts.

(** ** First occurrences *)

Lemma first_entries_keys (entries : list RawBooking) :
  map key_of_raw (first_entries entries) = first_occurrences (map key_of_raw entries).
Proof.
  induction entries as [|e r IH]; simpl; [reflexivity|].
  f_equal. rewrite <- IH. clear IH.
  induction (first_entries r) as [|x xs IHx]; [reflexivity|].
  simpl map. destruct (decide (key_of_raw x ≠ key_of_raw e)) as [Hne|Heq].
  - rewrite !filter_cons_True by assumption. simpl. now rewrite IHx.
  - rewrite !filter_cons_False by assumption. apply IHx.
Qed.

Lemma first_occurrences_elem (ks : list key) (k : key) :
  k ∈ first_occurrences ks ↔ k ∈ ks.
Proof.
  induction ks as [|a r IH]; simpl; [reflexivity|].
  rewrite !elem_of_cons, list_elem_of_filter, IH.
  destruct (decide (k = a)); tauto.
Qed.

Lemma first_occurrences_NoDup (ks : list key) : NoDup (first_occurrences ks).
Proof.
  induction ks as [|a r IH]; simpl; [constructor|].
  apply NoDup_cons. split.
  - rewrite list_elem_of_filter. tauto.
  - now apply NoDup_filter.
Qed.

Lemma first_occurrences_snoc (ks : list key) (k : key) :
  first_occurrences (ks ++ [k])
  = if decide (k ∈ ks) then first_occurrences ks else first_occurrences ks ++ [k].
Proof.
  induction ks as [|a r IH]; simpl.
  - destruct (decide (k ∈ [])) as [Hin|]; [inversion Hin | reflexivity].
  - rewrite IH. destruct (decide (k ∈ r)) as [Hin|Hnin].
    + rewrite decide_True by (apply elem_of_cons; tauto). reflexivity.
    + rewrite filter_app, filter_cons, filter_nil.
      destruct (decide (k = a)) as [->|Hne].
      * rewrite (decide_False (P := a ≠ a)) by tauto.
        rewrite decide_True by (apply elem_of_cons; tauto).
        now rewrite app_nil_r.
      * rewrite (decide_True (P := k ≠ a)) by assumption.
        rewrite decide_False by (rewrite elem_of_cons; tauto).
        reflexivity.
Qed.

Lemma first_entries_snoc (entries : list RawBooking) (x : RawBooking) :
  first_entries (entries ++ [x])
  = if decide (key_of_raw x ∈ map key_of_raw entries)
    then first_entries entries else first_entries entries ++ [x].
Proof.
  induction entries as [|a r IH]; simpl.
  - destruct (decide (key_of_raw x ∈ [])) as [Hin|]; [inversion Hin | reflexivity].
  - rewrite IH. destruct (decide (key_of_raw x ∈ map key_of_raw r)) as [Hin|Hnin].
    + rewrite decide_True by (apply elem_of_cons; tauto). reflexivity.
    + rewrite filter_app, filter_cons, filter_nil.
      destruct (decide (key_of_raw x = key_of_raw a)) as [Heq|Hne].
      * rewrite (decide_False (P := key_of_raw x ≠ key_of_raw a)) by tauto.
        rewrite decide_True by (apply elem_of_cons; tauto).
        now rewrite app_nil_r.
      * rewrite (decide_True (P := key_of_raw x ≠ key_of_raw a)) by assumption.
        rewrite decide_False by (rewrite elem_of_cons; tauto).
        reflexivity.
Qed.

Lemma first_entries_NoDup (entries : list RawBooking) :
  NoDup (map key_of_raw (first_entries entries)).
Proof. rewrite first_entries_keys. apply first_occurrences_NoDup. Qed.

Lemma first_entries_key_elem (entries : list RawBooking) (k : key) :
  k ∈ map key_of_raw (first_entries entries) ↔ k ∈ map key_of_raw entries.
Proof. rewrite first_entries_keys. apply first_occurrences_elem. Qed.

Lemma same_key_snoc (k : key) (entries : list RawBooking) (x : RawBooking) :
  same_key k (entries ++ [x])
  = same_key k entries ++ (if decide (key_of_raw x = k) then [x] else []).
Proof. unfold same_key. now rewrite filter_app, filter_cons, filter_nil. Qed.

Lemma same_key_absent (k : key) (entries : list RawBooking) :
  k ∉ map key_of_raw entries → same_key k entries = [].
Proof.
  intros Hk. unfold same_key. induction entries as [|e r IH]; [reflexivity|].
  simpl in Hk. rewrite not_elem_of_cons in Hk. destruct Hk as [Hne Hk].
  rewrite filter_cons_False by congruence. now apply IH.
Qed.

(** ** Collation *)

Section Collation.
Variable reg : gmap string RoomInfo.
Variable pages : Z → string.

Lemma merged_snoc gd (entries : list RawBooking) (x first : RawBooking) :
  merged reg pages gd (entries ++ [x]) first
  = if decide (key_of_raw x = key_of_raw first)
    then append_room (resolved_room reg x) (merged reg pages gd entries first)
    else merged reg pages gd entries first.
Proof.
  unfold merged, append_room. rewrite same_key_snoc.
  destruct (decide (key_of_raw x = key_of_raw first)); simpl.
  - now rewrite map_app.
  - now rewrite app_nil_r.
Qed.

Lemma collated_dict_keys gd (entries : list RawBooking) :
  Dict.keys (collated_dict reg pages gd entries)
  = map key_of_raw (first_entries entries).
Proof. unfold Dict.keys, collated_dict. rewrite map_map. reflexivity. Qed.

Lemma collated_dict_values gd (entries : list RawBooking) :
  Dict.values (collated_dict reg pages gd entries) = collated reg pages gd entries.
Proof. unfold Dict.values, collated_dict, collated. rewrite map_map. reflexivity. Qed.

(** One more entry: an entry of a key already seen adds its room to the
    Booking of that key, an entry of a new key adds a Booking at the end. *)
Lemma collated_dict_snoc gd (entries : list RawBooking) (x : RawBooking) (r : RoomInfo) :
  reg !! raw_color x = Some r →
  (if Dict.mem (key_of_raw x) (collated_dict reg pages gd entries)
   then Dict.alter (append_room (room_name r)) (key_of_raw x)
          (collated_dict reg pages gd entries)
   else Dict.set (key_of_raw x)
          {| id := raw_Id x; title := raw_title x; start := raw_start x;
             end_ := raw_end x; rooms := [room_name r];
             description := if gd then pages (raw_Id x) else "" |}
          (collated_dict reg pages gd entries))
  = collated_dict reg pages gd (entries ++ [x]).
Proof.
  intros Hr.
  assert (Hroom : resolved_room reg x = room_name r)
    by (unfold resolved_room; now rewrite Hr).
  destruct (Dict.mem (key_of_raw x) (collated_dict reg pages gd entries)) eqn:Hmem.
  - apply dict_mem_keys in Hmem.
    rewrite collated_dict_keys, first_entries_key_elem in Hmem.
    unfold collated_dict at 1.
    rewrite dict_alter_map by apply first_entries_NoDup.
    unfold collated_dict. rewrite first_entries_snoc, decide_True by assumption.
    apply map_ext. intros f. rewrite merged_snoc, Hroom. reflexivity.
  - assert (Hnew : key_of_raw x ∉ map key_of_raw entries).
    { intros Hin. apply first_entries_key_elem in Hin.
      rewrite <- (collated_dict_keys gd) in Hin.
      apply dict_mem_keys in Hin. congruence. }
    rewrite dict_set_fresh
      by (rewrite collated_dict_keys, first_entries_key_elem; exact Hnew).
    unfold collated_dict. rewrite first_entries_snoc, decide_False by assumption.
    rewrite map_app. f_equal.
    + apply map_ext_in. intros f Hf. rewrite merged_snoc.
      rewrite decide_False; [reflexivity|].
      intros Heq. apply Hnew. rewrite Heq.
      apply first_entries_key_elem. apply list_elem_of_In. now apply in_map.
    + simpl. f_equal. unfold merged. rewrite same_key_snoc, decide_True by reflexivity.
      rewrite same_key_absent by assumption. simpl. now rewrite Hroom.
Qed.

Lemma collate_step_reserved gd d (x : RawBooking) (tr : list Z) :
  raw_title x ∈ reserved_titles →
  collate_step reg pages gd d x tr = (Ok d, tr).
Proof.
  intros Hx. unfold collate_step. now rewrite bool_decide_true by assumption.
Qed.

Lemma collate_step_real gd d (x : RawBooking) (r : RoomInfo) (tr : list Z) :
  raw_title x ∉ reserved_titles →
  reg !! raw_color x = Some r →
  collate_step reg pages gd d x tr
  = (Ok (if Dict.mem (key_of_raw x) d
         then Dict.alter (append_room (room_name r)) (key_of_raw x) d
         else Dict.set (key_of_raw x)
                {| id := raw_Id x; title := raw_title x; start := raw_start x;
                   end_ := raw_end x; rooms := [room_name r];
                   description := if gd then pages (raw_Id x) else "" |} d),
     tr ++ requested gd [x]).
Proof.
  intros Hx Hr. unfold collate_step, bind, room_name_of, get_description, ret.
  rewrite bool_decide_false by assumption. rewrite Hr.
  destruct gd; simpl; rewrite ?app_nil_r;
    destruct (Dict.mem (key_of_raw x) d); reflexivity.
Qed.

Lemma collate_step_unknown gd d (x : RawBooking) (tr : list Z) :
  raw_title x ∉ reserved_titles →
  reg !! raw_color x = None →
  collate_step reg pages gd d x tr = (KeyError (raw_color x), tr).
Proof.
  intros Hx Hr. unfold collate_step, bind, room_name_of.
  rewrite bool_decide_false by assumption. now rewrite Hr.
Qed.

(** Placeholder entries leave the loop state as it is. *)
Lemma for_each_collate_real gd (raw : list RawBooking) d (tr : list Z) :
  for_each (collate_step reg pages gd) raw d tr
  = for_each (collate_step reg pages gd) (real_entries raw) d tr.
Proof.
  revert d tr. unfold real_entries.
  induction raw as [|x raw IH]; intros d tr; [reflexivity|].
  destruct (decide (raw_title x ∈ reserved_titles)) as [Hx|Hx].
  - rewrite filter_cons_False by tauto.
    simpl. unfold bind. rewrite collate_step_reserved by assumption. apply IH.
  - rewrite filter_cons_True by assumption.
    simpl. unfold bind.
    destruct (collate_step reg pages gd d x tr) as [[d'|e] tr']; [apply IH | reflexivity].
Qed.

Lemma real_entries_real (raw : list RawBooking) :
  Forall (fun e => raw_title e ∉ reserved_titles) (real_entries raw).
Proof. apply Forall_forall. intros e He. now apply list_elem_of_filter in He. Qed.

Lemma requested_app gd (xs ys : list RawBooking) :
  requested gd (xs ++ ys) = requested gd xs ++ requested gd ys.
Proof. unfold requested. destruct gd; [apply map_app | reflexivity]. Qed.

Lemma for_each_collate_ok gd (entries : list RawBooking) (tr : list Z) :
  Forall (fun e => raw_title e ∉ reserved_titles) entries →
  Forall (fun e => is_Some (reg !! raw_color e)) entries →
  for_each (collate_step reg pages gd) entries [] tr
  = (Ok (collated_dict reg pages gd entries), tr ++ requested gd entries).
Proof.
  induction entries as [|x entries IH] using rev_ind; intros Hreal Hknown.
  - simpl. unfold ret, requested. destruct gd; now rewrite app_nil_r.
  - apply Forall_app in Hreal as [Hreal Hx]. apply Forall_app in Hknown as [Hknown Hr].
    rewrite Forall_singleton in Hx. rewrite Forall_singleton in Hr.
    destruct Hr as [r Hr].
    rewrite for_each_app, IH by assumption. simpl. unfold bind.
    rewrite (collate_step_real _ _ _ r) by assumption.
    unfold ret. rewrite collated_dict_snoc by assumption.
    now rewrite requested_app, app_assoc.
Qed.

Lemma for_each_collate_ok_inv gd (entries : list RawBooking) d d' (tr tr' : list Z) :
  Forall (fun e => raw_title e ∉ reserved_titles) entries →
  for_each (collate_step reg pages gd) entries d tr = (Ok d', tr') →
  Forall (fun e => is_Some (reg !! raw_color e)) entries.
Proof.
  revert d tr. induction entries as [|x entries IH]; intros d tr Hreal Hrun.
  - constructor.
  - apply Forall_cons in Hreal as [Hx Hreal].
    simpl in Hrun. unfold bind in Hrun.
    destruct (reg !! raw_color x) as [r|] eqn:Hr.
    + constructor; [eauto|].
      rewrite (collate_step_real _ _ _ r) in Hrun by assumption. eauto.
    + rewrite collate_step_unknown in Hrun by assumption. discriminate.
Qed.

(** [get_bookings] returns exactly when every colour of a real entry is
    in the registry, and then it returns the collation of the real
    entries. *)
Lemma get_bookings_ok (raw : list RawBooking) gd (tr : list Z) :
  colours_known reg raw →
  get_bookings reg pages raw gd tr
  = (Ok (collated reg pages gd (real_entries raw)),
     tr ++ requested gd (real_entries raw)).
Proof.
  intros Hknown. unfold get_bookings, bind.
  rewrite for_each_collate_real, for_each_collate_ok
    by (apply real_entries_real || exact Hknown).
  unfold ret. now rewrite collated_dict_values.
Qed.

Lemma get_bookings_ok_inv (raw : list RawBooking) gd (tr tr' : list Z) out :
  get_bookings reg pages raw gd tr = (Ok out, tr') →
  colours_known reg raw.
Proof.
  unfold get_bookings, bind. rewrite for_each_collate_real.
  destruct (for_each _ _ _ _) as [[d'|e] tr0] eqn:Hrun; [|discriminate].
  intros _. eapply for_each_collate_ok_inv; [apply real_entries_real | exact Hrun].
Qed.

Lemma get_bookings_returns (raw : list RawBooking) gd (tr tr' : list Z) out :
  get_bookings reg pages raw gd tr = (Ok out, tr') →
  out = collated reg pages gd (real_entries raw)
  ∧ tr' = tr ++ requested gd (real_entries raw).
Proof.
  intros Hrun. pose proof (get_bookings_ok_inv _ _ _ _ _ Hrun) as Hknown.
  rewrite get_bookings_ok in Hrun by assumption.
  now inversion Hrun.
Qed.

(** *** The shape of the collation *)

Lemma filter_map {A B} (P : B → Prop) `{!∀ y, Decision (P y)} (f : A → B) (l : list A) :
  filter P (map f l) = map f (filter (fun x => P (f x)) l).
Proof.
  induction l as [|x l IH]; [reflexivity|]. simpl map.
  destruct (decide (P (f x))).
  - rewrite !filter_cons_True by assumption. simpl. now rewrite IH.
  - rewrite !filter_cons_False by assumption. apply IH.
Qed.

Lemma same_key_first_entries (k : key) (entries : list RawBooking) :
  same_key k (first_entries entries) = take 1 (same_key k entries).
Proof.
  unfold same_key. induction entries as [|e r IH]; [reflexivity|].
  simpl first_entries. destruct (decide (key_of_raw e = k)) as [Hk|Hk].
  - rewrite !filter_cons_True by assumption. simpl. f_equal.
    apply same_key_absent. intros Hin. apply list_elem_of_fmap in Hin.
    destruct Hin as (y & Hy & Hin). apply list_elem_of_filter in Hin.
    destruct Hin as [Hne _]. congruence.
  - rewrite !filter_cons_False by assumption. rewrite <- IH.
    apply list_filter_filter_l. intros y Hy. congruence.
Qed.

Lemma collated_keys gd (entries : list RawBooking) :
  map key_of (collated reg pages gd entries)
  = first_occurrences (map key_of_raw entries).
Proof.
  unfold collated. rewrite map_map. simpl. apply first_entries_keys.
Qed.

Lemma collated_filter_key gd (entries : list RawBooking) (k : key) :
  filter (fun b => key_of b = k) (collated reg pages gd entries)
  = map (merged reg pages gd entries) (take 1 (same_key k entries)).
Proof.
  unfold collated. rewrite filter_map. f_equal. apply same_key_first_entries.
Qed.

Lemma same_key_present (entries : list RawBooking) (e : RawBooking) :
  e ∈ entries → ∃ first later, same_key (key_of_raw e) entries = first :: later.
Proof.
  intros He. destruct (same_key (key_of_raw e) entries) as [|f l] eqn:Hs; [|eauto].
  exfalso. unfold same_key in Hs.
  eapply filter_nil_not_elem_of; [exact Hs | | exact He]. reflexivity.
Qed.

Lemma collated_elem gd (entries : list RawBooking) (b : Booking) :
  b ∈ collated reg pages gd entries →
  ∃ first later,
    same_key (key_of b) entries = first :: later
    ∧ b = merged reg pages gd entries first.
Proof.
  intros Hb.
  assert (Hf : b ∈ filter (fun b' => key_of b' = key_of b) (collated reg pages gd entries))
    by (apply list_elem_of_filter; split; [reflexivity | assumption]).
  rewrite collated_filter_key in Hf.
  destruct (same_key (key_of b) entries) as [|first later]; simpl in Hf.
  - inversion Hf.
  - exists first, later. split; [reflexivity|].
    apply list_elem_of_singleton in Hf. exact Hf.
Qed.

Lemma collated_not_reserved gd (raw : list RawBooking) :
  Forall (fun b => title b ∉ reserved_titles)
         (collated reg pages gd (real_entries raw)).
Proof.
  apply Forall_forall. intros b Hb.
  apply collated_elem in Hb. destruct Hb as (first & later & Hs & ->). simpl.
  assert (Hin : first ∈ same_key (key_of (merged reg pages gd (real_entries raw) first))
                        (real_entries raw)) by (rewrite Hs; left).
  apply list_elem_of_filter in Hin. destruct Hin as [_ Hin].
  now apply list_elem_of_filter in Hin.
Qed.

Lemma real_entries_idem (raw : list RawBooking) :
  real_entries (real_entries raw) = real_entries raw.
Proof. unfold real_entries. apply list_filter_filter_l. tauto. Qed.

(** *** The claims about [get_bookings] *)

(** C1. The list returned by [get_bookings] never holds two Bookings
    with equal (title, start, end): the keys of the output are pairwise
    distinct, they are the keys of the real raw entries, and every such
    key has exactly one Booking. *)
Theorem get_bookings_one_booking_per_key
    (raw : list RawBooking) gd (tr tr' : list Z) (out : list Booking) :
  get_bookings reg pages raw gd tr = (Ok out, tr') →
  NoDup (map key_of out)
  ∧ (∀ k, k ∈ map key_of out ↔ k ∈ map key_of_raw (real_entries raw))
  ∧ (∀ e, e ∈ real_entries raw →
       ∃ b, filter (fun b' => key_of b' = key_of_raw e) out = [b]).
Proof.
  intros Hrun. apply get_bookings_returns in Hrun as [-> _].
  split; [|split].
  - rewrite collated_keys. apply first_occurrences_NoDup.
  - intros k. rewrite collated_keys. apply first_occurrences_elem.
  - intros e He. rewrite collated_filter_key.
    destruct (same_key_present _ _ He) as (first & later & ->).
    simpl. eauto.
Qed.

(** C9. The Bookings appear in the order in which their keys were first
    met while scanning the raw entries in source order. *)
Theorem get_bookings_first_seen_order
    (raw : list RawBooking) gd (tr tr' : list Z) (out : list Booking) :
  get_bookings reg pages raw gd tr = (Ok out, tr') →
  map key_of out = first_occurrences (map key_of_raw (real_entries raw)).
Proof.
  intros Hrun. apply get_bookings_returns in Hrun as [-> _].
  apply collated_keys.
Qed.

(** C8. No Booking of the output has a reserved placeholder title, and
    the placeholder entries contribute nothing at all: dropping them
    from the input changes neither the result nor the requests made. *)
Theorem get_bookings_ignores_placeholders (raw : list RawBooking) gd :
  (∀ tr, get_bookings reg pages raw gd tr
         = get_bookings reg pages (real_entries raw) gd tr)
  ∧ (∀ tr tr' out,
       get_bookings reg pages raw gd tr = (Ok out, tr') →
       Forall (fun b => title b ∉ reserved_titles) out).
Proof.
  split.
  - intros tr. unfold get_bookings, bind.
    rewrite for_each_collate_real. symmetry.
    rewrite for_each_collate_real, real_entries_idem. reflexivity.
  - intros tr tr' out Hrun. apply get_bookings_returns in Hrun as [-> _].
    apply collated_not_reserved.
Qed.

(** C10. A Booking of the output takes its id, title, start and end
    (and, when [get_desc] is set, its description) from the first raw
    entry of its key; the later entries of the key give their room names
    and nothing else, although a description was requested for each. *)
Theorem get_bookings_merged_from_first_entry
    (raw : list RawBooking) gd (tr tr' : list Z) (out : list Booking) :
  get_bookings reg pages raw gd tr = (Ok out, tr') →
  tr' = tr ++ requested gd (real_entries raw)
  ∧ ∀ b, b ∈ out →
      ∃ first later,
        same_key (key_of b) (real_entries raw) = first :: later
        ∧ id b = raw_Id first
        ∧ title b = raw_title first
        ∧ start b = raw_start first
        ∧ end_ b = raw_end first
        ∧ description b = (if gd then pages (raw_Id first) else "")
        ∧ rooms b = map (resolved_room reg) (first :: later).
Proof.
  intros Hrun. apply get_bookings_returns in Hrun as [-> ->].
  split; [reflexivity|]. intros b Hb.
  destruct (collated_elem _ _ _ Hb) as (first & later & Hs & Hm).
  exists first, later. split; [exact Hs|].
  rewrite Hm. simpl. repeat split.
  rewrite Hm in Hs.
  change (key_of (merged reg pages gd (real_entries raw) first))
    with (key_of_raw first) in Hs.
  now rewrite Hs.
Qed.

Lemma same_key_real_entries (e : RawBooking) (raw : list RawBooking) :
  raw_title e ∉ reserved_titles →
  same_key (key_of_raw e) (real_entries raw) = same_key (key_of_raw e) raw.
Proof.
  intros He. unfold same_key, real_entries.
  apply list_filter_filter_l. intros x Hx.
  assert (Ht : raw_title x = raw_title e) by (unfold key_of_raw in Hx; congruence).
  now rewrite Ht.
Qed.

Lemma same_key_none (k : key) (entries : list RawBooking) :
  Forall (fun e => key_of_raw e ≠ k) entries → same_key k entries = [].
Proof.
  intros Hall. apply same_key_absent. intros Hin.
  apply list_elem_of_fmap in Hin. destruct Hin as (y & Hy & Hin).
  rewrite Forall_forall in Hall. apply (Hall y Hin). congruence.
Qed.

(** C6. Two raw entries with the same (title, start, end), met in
    source order with colours C1 then C2 and the only ones of that key:
    the Booking of that key in the output has the rooms
    [name(C1), name(C2)], in that order, and there is exactly one such
    Booking (unless the title is a reserved placeholder, which gives no
    Booking at all). *)
Theorem get_bookings_two_rooms_in_order
    (l1 l2 l3 : list RawBooking) (e1 e2 : RawBooking) (r1 r2 : RoomInfo)
    gd (tr tr' : list Z) (out : list Booking) :
  key_of_raw e2 = key_of_raw e1 →
  Forall (fun e => key_of_raw e ≠ key_of_raw e1) (l1 ++ l2 ++ l3) →
  reg !! raw_color e1 = Some r1 →
  reg !! raw_color e2 = Some r2 →
  get_bookings reg pages (l1 ++ e1 :: l2 ++ e2 :: l3) gd tr = (Ok out, tr') →
  (∀ b, b ∈ out → key_of b = key_of_raw e1 →
        rooms b = [room_name r1; room_name r2])
  ∧ (raw_title e1 ∉ reserved_titles →
     ∃ b, filter (fun b' => key_of b' = key_of_raw e1) out = [b]).
Proof.
  intros Hkey Hothers Hr1 Hr2 Hrun.
  apply get_bookings_returns in Hrun as [-> _].
  apply Forall_app in Hothers as [H1 Hothers].
  apply Forall_app in Hothers as [H2 H3].
  assert (Hs : raw_title e1 ∉ reserved_titles →
               same_key (key_of_raw e1)
                 (real_entries (l1 ++ e1 :: l2 ++ e2 :: l3)) = [e1; e2]).
  { intros Hreal. rewrite same_key_real_entries by assumption. unfold same_key.
    rewrite filter_app, filter_cons_True by reflexivity.
    rewrite filter_app, filter_cons_True by assumption.
    fold (same_key (key_of_raw e1) l1). fold (same_key (key_of_raw e1) l2).
    fold (same_key (key_of_raw e1) l3).
    now rewrite !same_key_none by assumption. }
  split.
  - intros b Hb Hkb.
    assert (Hreal : raw_title e1 ∉ reserved_titles).
    { pose proof (collated_not_reserved gd (l1 ++ e1 :: l2 ++ e2 :: l3)) as Hall.
      rewrite Forall_forall in Hall. specialize (Hall b Hb).
      unfold key_of, key_of_raw in Hkb. congruence. }
    destruct (collated_elem _ _ _ Hb) as (first & later & Hfirst & ->).
    rewrite Hkb, (Hs Hreal) in Hfirst. injection Hfirst as <- <-.
    simpl. rewrite (Hs Hreal). simpl.
    unfold resolved_room. now rewrite Hr1, Hr2.
  - intros Hreal. rewrite collated_filter_key, (Hs Hreal). simpl. eauto.
Qed.

End Collation.

(** *** The claims at the scenarios *)

Lemma get_bookings_one_booking_per_key_witness :
  get_bookings Scenario.registry Scenario.pages Scenario.week true []
  = (Ok Scenario.week_collated, [1; 3; 2; 4])
  ∧ NoDup (map key_of Scenario.week_collated)
  ∧ (∀ k, k ∈ map key_of Scenario.week_collated
          ↔ k ∈ map key_of_raw (real_entries Scenario.week))
  ∧ (∀ e, e ∈ real_entries Scenario.week →
       ∃ b, filter (fun b' => key_of b' = key_of_raw e) Scenario.week_collated = [b]).
Proof.
  assert (Hrun : get_bookings Scenario.registry Scenario.pages Scenario.week true []
                 = (Ok Scenario.week_collated, [1; 3; 2; 4]))
    by (vm_compute; reflexivity).
  split; [exact Hrun|].
  exact (get_bookings_one_booking_per_key _ _ _ _ _ _ _ Hrun).
Defined.

Lemma get_bookings_first_seen_order_witness :
  get_bookings Scenario.registry Scenario.pages Scenario.week true []
  = (Ok Scenario.week_collated, [1; 3; 2; 4])
  ∧ map key_of Scenario.week_collated
    = first_occurrences (map key_of_raw (real_entries Scenario.week)).
Proof.
  assert (Hrun : get_bookings Scenario.registry Scenario.pages Scenario.week true []
                 = (Ok Scenario.week_collated, [1; 3; 2; 4]))
    by (vm_compute; reflexivity).
  split; [exact Hrun|].
  exact (get_bookings_first_seen_order _ _ _ _ _ _ _ Hrun).
Defined.

Lemma get_bookings_ignores_placeholders_witness :
  get_bookings Scenario.registry Scenario.pages Scenario.week true []
  = (Ok Scenario.week_collated, [1; 3; 2; 4])
  ∧ Forall (fun b => title b ∉ reserved_titles) Scenario.week_collated.
Proof.
  assert (Hrun : get_bookings Scenario.registry Scenario.pages Scenario.week true []
                 = (Ok Scenario.week_collated, [1; 3; 2; 4]))
    by (vm_compute; reflexivity).
  split; [exact Hrun|].
  exact (proj2 (get_bookings_ignores_placeholders
                  Scenario.registry Scenario.pages Scenario.week true) _ _ _ Hrun).
Defined.

Lemma get_bookings_merged_from_first_entry_witness :
  get_bookings Scenario.registry Scenario.pages Scenario.week true []
  = (Ok Scenario.week_collated, [1; 3; 2; 4])
  ∧ [1; 3; 2; 4] = [] ++ requested true (real_entries Scenario.week)
  ∧ ∀ b, b ∈ Scenario.week_collated →
      ∃ first later,
        same_key (key_of b) (real_entries Scenario.week) = first :: later
        ∧ id b = raw_Id first
        ∧ title b = raw_title first
        ∧ start b = raw_start first
        ∧ end_ b = raw_end first
        ∧ description b = Scenario.pages (raw_Id first)
        ∧ rooms b = map (resolved_room Scenario.registry) (first :: later).
Proof.
  assert (Hrun : get_bookings Scenario.registry Scenario.pages Scenario.week true []
                 = (Ok Scenario.week_collated, [1; 3; 2; 4]))
    by (vm_compute; reflexivity).
  split; [exact Hrun|].
  exact (get_bookings_merged_from_first_entry _ _ _ _ _ _ _ Hrun).
Defined.

Lemma get_bookings_two_rooms_in_order_witness :
  get_bookings Scenario.registry Scenario.pages
    [Scenario.yoga_hall_a; Scenario.yoga_hall_b] false []
  = (Ok Scenario.yoga_collated, [])
  ∧ (∀ b, b ∈ Scenario.yoga_collated →
          key_of b = key_of_raw Scenario.yoga_hall_a →
          rooms b = ["Hall A"; "Hall B"])
  ∧ (raw_title Scenario.yoga_hall_a ∉ reserved_titles →
     ∃ b, filter (fun b' => key_of b' = key_of_raw Scenario.yoga_hall_a)
            Scenario.yoga_collated = [b]).
Proof.
  assert (Hrun : get_bookings Scenario.registry Scenario.pages
                   ([] ++ Scenario.yoga_hall_a :: [] ++ Scenario.yoga_hall_b :: [])
                   false []
                 = (Ok Scenario.yoga_collated, []))
    by (vm_compute; reflexivity).
  split; [exact Hrun|].
  refine (get_bookings_two_rooms_in_order Scenario.registry Scenario.pages
            [] [] [] Scenario.yoga_hall_a Scenario.yoga_hall_b
            Scenario.hall_a Scenario.hall_b false [] [] Scenario.yoga_collated
            eq_refl _ _ _ Hrun).
  - constructor.
  - vm_compute; reflexivity.
  - vm_compute; reflexivity.
Defined.


(** ** Matching *)

Lemma foldl_record_confident (m : matches) (evs : list discovery) :
  confident_matches (foldl record_event m evs)
  = confident_matches m ++ map ref_of (of_tier Confident evs).
Proof.
  revert m. induction evs as [|ev evs IH]; intros m; simpl.
  - now rewrite app_nil_r.
  - rewrite IH. unfold of_tier, record_event. rewrite filter_cons.
    destruct (tier_of ev); simpl.
    + now rewrite <- app_assoc.
    + reflexivity.
Qed.

Lemma foldl_record_possible (m : matches) (evs : list discovery) :
  somewhat_sure_matches (foldl record_event m evs)
  = somewhat_sure_matches m ++ map ref_of (of_tier Possible evs).
Proof.
  revert m. induction evs as [|ev evs IH]; intros m; simpl.
  - now rewrite app_nil_r.
  - rewrite IH. unfold of_tier, record_event. rewrite filter_cons.
    destruct (tier_of ev); simpl.
    + reflexivity.
    + now rewrite <- app_assoc.
Qed.

Section Matching.
Variable pages : Z → string.

(** On an object that tracks [b], one pass of the loop body fetches the
    description and records what [classify] says. *)
Lemma match_item_tracks (term : string) (i : nat) (item b : Booking)
    (m : matches) (tr : list Z) :
  tracks pages item b →
  description b = "" →
  ∃ tr',
    match_item pages term (acronym term) i item m tr
    = (Ok (fetched pages b,
           foldl record_event m
             (map (fun t => Discovery t i b) (fst (classify pages term b))),
           snd (classify pages term b)),
       tr').
Proof.
  intros Hitem Hdesc.
  assert (Hid : id item = id b) by (destruct Hitem as [->| ->]; reflexivity).
  assert (Htitle : title item = title b) by (destruct Hitem as [->| ->]; reflexivity).
  assert (Hset : set_description (pages (id b)) item = fetched pages b)
    by (destruct Hitem as [->| ->]; reflexivity).
  unfold match_item, classify. rewrite Htitle.
  destruct (PyStr.contains (PyStr.lower term) (PyStr.lower (title b))).
  - unfold bind, get_description, ret. rewrite Hid, Hset. eauto.
  - assert (Hensure : ∃ tr',
      (if PyStr.falsy (description item)
       then let* desc := get_description pages (id item) in
            ret (set_description desc item)
       else ret item) tr = (Ok (fetched pages b), tr')).
    { destruct (PyStr.falsy (description item)) eqn:Hfalsy.
      - unfold bind, get_description, ret. rewrite Hid, Hset. eauto.
      - destruct Hitem as [->| ->]; [|unfold ret; eauto].
        rewrite Hdesc in Hfalsy. discriminate. }
    destruct Hensure as [tr' Hensure]. exists tr'.
    unfold bind at 1. rewrite Hensure. simpl.
    destruct (PyStr.contains (PyStr.lower term) (PyStr.lower (pages (id b))));
      destruct (PyStr.contains (PyStr.lower (acronym term)) (PyStr.lower (title b)));
      destruct (PyStr.contains (PyStr.lower (acronym term)) (PyStr.lower (pages (id b))));
      reflexivity.
Qed.

Lemma scan_tracks (term : string) (items bs : list Booking) :
  Forall2 (tracks pages) items bs →
  Forall (fun b => description b = "") bs →
  ∀ (off : nat) (m : matches) (tr : list Z),
  ∃ items' tr',
    scan pages term (acronym term) off items m tr
    = (Ok (items', foldl record_event m (discover_term pages term off bs)), tr')
    ∧ Forall2 (tracks pages) items' bs
    ∧ (∀ j b, bs !! j = Some b → items !! j = Some (fetched pages b) →
              items' !! j = Some (fetched pages b))
    ∧ (∀ ev, ev ∈ discover_term pages term off bs →
         ∃ j, ref_of ev = (off + j)%nat
              ∧ bs !! j = Some (booking_of ev)
              ∧ items' !! j = Some (fetched pages (booking_of ev))).
Proof.
  induction 1 as [|item b items bs Hitem Hrest IH]; intros Hdesc off m tr.
  - exists [], tr. simpl. repeat split; try constructor; try tauto.
    intros ev Hev. inversion Hev.
  - apply Forall_cons in Hdesc as [Hb Hdesc].
    destruct (match_item_tracks term off item b m tr Hitem Hb) as [tr1 Hstep].
    assert (Hself : tracks pages (fetched pages b) b) by now right.
    simpl scan. unfold bind at 1. rewrite Hstep.
    simpl discover_term. rewrite foldl_app.
    destruct (snd (classify pages term b)) eqn:Hstop.
    + exists (fetched pages b :: items), tr1. unfold ret. simpl.
      split; [reflexivity|]. split; [now constructor|]. split.
      * intros [|j] b' Hb' Hj; simpl in *; [congruence | assumption].
      * intros ev Hev. rewrite app_nil_r in Hev.
        apply list_elem_of_fmap in Hev. destruct Hev as (t & -> & _).
        exists 0%nat. simpl. split; [lia | split; reflexivity].
    + destruct (IH Hdesc (S off)
                  (foldl record_event m
                     (map (fun t => Discovery t off b) (fst (classify pages term b))))
                  tr1)
        as (items' & tr' & Hscan & Htracks & Hstable & Hevs).
      exists (fetched pages b :: items'), tr'.
      unfold bind. rewrite Hscan. unfold ret.
      split; [reflexivity|]. split; [now constructor|]. split.
      * intros [|j] b' Hb' Hj; simpl in *; [congruence | eauto].
      * intros ev Hev. apply elem_of_app in Hev as [Hev|Hev].
        -- apply list_elem_of_fmap in Hev. destruct Hev as (t & -> & _).
           exists 0%nat. simpl. split; [lia | split; reflexivity].
        -- destruct (Hevs ev Hev) as (j & Hj & Hbs & Hit).
           exists (S j). simpl. split; [lia | split; assumption].
Qed.

(** The invariant of the term loop: every discovery made so far refers to
    a Booking whose description has been fetched. *)
Lemma search_loop_tracks (bs : list Booking) (terms : list string) :
  Forall (fun b => description b = "") bs →
  ∀ (items : list Booking) (m : matches) (tr : list Z) (seen : list discovery),
  Forall2 (tracks pages) items bs →
  (∀ ev, ev ∈ seen →
     bs !! ref_of ev = Some (booking_of ev)
     ∧ items !! ref_of ev = Some (fetched pages (booking_of ev))) →
  ∃ items' tr',
    search_loop pages terms items m tr
    = (Ok (items', foldl record_event m (discover pages terms bs)), tr')
    ∧ Forall2 (tracks pages) items' bs
    ∧ (∀ ev, ev ∈ seen ++ discover pages terms bs →
         bs !! ref_of ev = Some (booking_of ev)
         ∧ items' !! ref_of ev = Some (fetched pages (booking_of ev))).
Proof.
  intros Hdesc. induction terms as [|term terms IH]; intros items m tr seen Htracks Hseen.
  - exists items, tr. simpl. rewrite app_nil_r. repeat split; try assumption.
    all: now apply Hseen.
  - destruct (scan_tracks term items bs Htracks Hdesc 0%nat m tr)
      as (items1 & tr1 & Hscan & Htracks1 & Hstable & Hevs).
    destruct (IH items1 (foldl record_event m (discover_term pages term 0 bs)) tr1
                (seen ++ discover_term pages term 0 bs) Htracks1)
      as (items' & tr' & Hloop & Htracks' & Hall).
    { intros ev Hev. apply elem_of_app in Hev as [Hev|Hev].
      - destruct (Hseen ev Hev) as [Hbs Hit]. split; [assumption|].
        now apply Hstable.
      - destruct (Hevs ev Hev) as (j & Hj & Hbs & Hit).
        simpl in Hj. subst j. split; assumption. }
    exists items', tr'. simpl search_loop. unfold bind. rewrite Hscan.
    unfold discover. simpl flat_map. rewrite foldl_app.
    split; [exact Hloop|]. split; [exact Htracks'|].
    intros ev Hev. apply Hall. now rewrite <- app_assoc.
Qed.

Lemma deref_discoveries (items : list Booking) (evs : list discovery) :
  (∀ ev, ev ∈ evs → items !! ref_of ev = Some (fetched pages (booking_of ev))) →
  deref items (map ref_of evs) = map (fun ev => fetched pages (booking_of ev)) evs.
Proof.
  unfold deref. induction evs as [|ev evs IH]; intros Hall; simpl; [reflexivity|].
  rewrite (Hall ev) by left. simpl. f_equal. apply IH.
  intros ev' Hev'. apply Hall. now right.
Qed.

Lemma deref_app (items : list Booking) (refs1 refs2 : list nat) :
  deref items (refs1 ++ refs2) = deref items refs1 ++ deref items refs2.
Proof. unfold deref. apply omap_app. Qed.

(** [search] over a freshly collated list returns the confident
    discoveries, then the possible ones, each in discovery order. *)
Lemma search_in_discovers (st : search_terms) (bs : list Booking) (tr : list Z) :
  Forall (fun b => description b = "") bs →
  ∃ tr',
    search_in pages st bs tr
    = (Ok (matches_of pages Confident (terms_of st) bs
           ++ matches_of pages Possible (terms_of st) bs), tr').
Proof.
  intros Hdesc.
  destruct (search_loop_tracks bs (terms_of st) Hdesc bs
              {| confident_matches := []; somewhat_sure_matches := [] |} tr [])
    as (items' & tr' & Hloop & _ & Hall).
  { apply Forall2_same_length_lookup_2; [reflexivity|].
    intros i x y Hx Hy. left. congruence. }
  { intros ev Hev. inversion Hev. }
  exists tr'. unfold search_in, search_refs, bind. rewrite Hloop. unfold ret.
  rewrite foldl_record_confident, foldl_record_possible. simpl.
  rewrite deref_app. unfold matches_of.
  rewrite !deref_discoveries; [reflexivity| |].
  - intros ev Hev. apply list_elem_of_filter in Hev as [_ Hev]. now apply Hall.
  - intros ev Hev. apply list_elem_of_filter in Hev as [_ Hev]. now apply Hall.
Qed.

(** *** The scan of one term *)



(** *** The references of a search *)

Lemma discover_term_ref (term : string) (bs : list Booking) (off i : nat) :
  (∃ ev, ev ∈ discover_term pages term off bs ∧ ref_of ev = i)
  ↔ ∃ j b, i = (off + j)%nat
           ∧ bs !! j = Some b
           ∧ fst (classify pages term b) ≠ []
           ∧ ∀ j' b', (j' < j)%nat → bs !! j' = Some b' →
                      snd (classify pages term b') = false.
Proof.
  revert off. induction bs as [|b0 rest IH]; intros off; simpl.
  - split.
    + intros (ev & Hev & _). inversion Hev.
    + intros (j & b & _ & Hb & _). discriminate.
  - split.
    + intros (ev & Hev & Href). apply elem_of_app in Hev as [Hev|Hev].
      * apply list_elem_of_fmap in Hev. destruct Hev as (t & -> & Ht).
        exists 0%nat, b0. simpl in *. repeat split.
        -- lia.
        -- intros Hnil. rewrite Hnil in Ht. inversion Ht.
        -- intros j' b' Hj'. lia.
      * destruct (snd (classify pages term b0)) eqn:Hstop; [inversion Hev|].
        destruct (proj1 (IH (S off))) as (j & b & Hi & Hb & Hts & Hbefore); [eauto|].
        exists (S j), b. repeat split; try assumption; [lia|].
        intros [|j'] b' Hj' Hb'; simpl in Hb'.
        -- congruence.
        -- apply (Hbefore j' b'); [lia | assumption].
    + intros ([|j] & b & Hi & Hb & Hts & Hbefore); simpl in Hb.
      * injection Hb as ->.
        destruct (fst (classify pages term b)) as [|t ts] eqn:Hfst; [congruence|].
        exists (Discovery t off b). split; [|simpl; lia].
        apply elem_of_app. left. simpl. left.
      * assert (Hstop : snd (classify pages term b0) = false)
          by (apply (Hbefore 0%nat b0); [lia | reflexivity]).
        rewrite Hstop.
        destruct (proj2 (IH (S off))) as (ev & Hev & Href).
        { exists j, b. repeat split; try assumption; [lia|].
          intros j' b' Hj' Hb'. apply (Hbefore (S j') b'); [lia | exact Hb']. }
        exists ev. split; [|exact Href]. apply elem_of_app. now right.
Qed.

Lemma search_result_refs_discovered (st : search_terms) (bs : list Booking) (i : nat) :
  Forall (fun b => description b = "") bs →
  i ∈ search_result_refs pages st bs
  ↔ ∃ ev, ev ∈ discover pages (terms_of st) bs ∧ ref_of ev = i.
Proof.
  intros Hdesc. unfold search_result_refs, search_refs.
  destruct (search_loop_tracks bs (terms_of st) Hdesc bs
              {| confident_matches := []; somewhat_sure_matches := [] |} [] [])
    as (items' & tr' & Hloop & _ & _).
  { apply Forall2_same_length_lookup_2; [reflexivity|].
    intros j x y Hx Hy. left. congruence. }
  { intros ev Hev. inversion Hev. }
  rewrite Hloop, foldl_record_confident, foldl_record_possible. simpl.
  rewrite elem_of_app, !list_elem_of_fmap. unfold of_tier. split.
  - intros [(ev & -> & Hev)|(ev & -> & Hev)];
      apply list_elem_of_filter in Hev as [_ Hev]; eauto.
  - intros (ev & Hev & <-). destruct (tier_of ev) eqn:Ht; [left | right];
      exists ev; (split; [reflexivity|]); apply list_elem_of_filter; tauto.
Qed.

Lemma contains_first_char (c : ascii) (r s : string) :
  PyStr.contains (String c r) s = true →
  PyStr.contains (String c EmptyString) s = true.
Proof.
  induction s as [|a s IH]; simpl; [discriminate|].
  destruct (ascii_dec c a) as [->|Hne].
  - intros _. now destruct s.
  - exact IH.
Qed.

End Matching.

(** *** The claims about [search] *)

Lemma collated_plain_descriptions (reg : gmap string RoomInfo) (pages : Z → string)
    (entries : list RawBooking) :
  Forall (fun b => description b = "") (collated reg pages false entries).
Proof.
  apply Forall_forall. intros b Hb. unfold collated in Hb.
  apply list_elem_of_fmap in Hb. destruct Hb as (first & -> & _). reflexivity.
Qed.



(** C4, at a failing input.  The terms "yoga" and "class" both occur in
    the title "Yoga class": the first branch of the loop body requests the
    description of booking 7 once per term, although it is cached on the
    Booking after the first request. *)
Theorem search_requests_a_description_twice :
  search Scenario.registry Scenario.pages (Lst ["yoga"; "class"])
    [Scenario.yoga_class] []
  = (Ok [ {| id := 7; title := "Yoga class"; start := "T7"; end_ := "T8";
             rooms := ["Hall A"]; description := "weekly class" |};
          {| id := 7; title := "Yoga class"; start := "T7"; end_ := "T8";
             rooms := ["Hall A"]; description := "weekly class" |} ],
     [7; 7]).
Proof. vm_compute. reflexivity. Qed.




(** C3, as worded, fails: the description "Members debate the budget"
    holds neither "AGM" nor "board", and the Booking is in the result all
    the same, through the acronym "B" of "board". *)
Lemma agm_matches_board_only_literally_fails : ¬ agm_matches_board_only_literally.
Proof.
  intros Hclaim.
  assert (Hiff := Hclaim Scenario.pages [Scenario.agm_booking] 0%nat Scenario.agm_booking).
  destruct Hiff as [Hin _]; try reflexivity.
  - repeat constructor.
  - assert (Habsurd : PyStr.contains "board"
                        (Scenario.pages (id Scenario.agm_booking)) = true).
    { apply Hin. vm_compute. left. }
    vm_compute in Habsurd. discriminate.
Qed.

Lemma classify_agm_board (pages : Z → string) (b : Booking) :
  title b = "Annual General Meeting" →
  classify pages "board" b
  = (if PyStr.contains "b" (PyStr.lower (pages (id b)))
     then ((if PyStr.contains "board" (PyStr.lower (pages (id b)))
            then [Possible] else []) ++ [Possible], true)
     else (if PyStr.contains "board" (PyStr.lower (pages (id b)))
           then [Possible] else [], false)).
Proof. intros Ht. unfold classify. rewrite Ht. reflexivity. Qed.

(** C3, amended.  A Booking titled "Annual General Meeting" is in the
    result of [search(["board"])] exactly when the scan reaches it (no
    Booking before it ends the scan of "board") and its description
    holds the letter "b" in either case: the acronym "B" of "board",
    matched case-insensitively, which every occurrence of "board" in any
    case contains.  It is absent otherwise. *)
Theorem agm_matches_board_through_acronym
    (pages : Z → string) (bs : list Booking) (i : nat) (b : Booking) :
  Forall (fun b => description b = "") bs →
  bs !! i = Some b →
  title b = "Annual General Meeting" →
  (i ∈ search_result_refs pages (Lst ["board"]) bs
   ↔ PyStr.contains "b" (PyStr.lower (pages (id b))) = true
     ∧ ∀ j bj, (j < i)%nat → bs !! j = Some bj →
               snd (classify pages "board" bj) = false).
Proof.
  intros Hdesc Hb Ht.
  rewrite search_result_refs_discovered by assumption.
  simpl terms_of. unfold discover. simpl flat_map. rewrite app_nil_r.
  rewrite discover_term_ref. split.
  - intros (j & b' & Hi & Hb' & Hts & Hbefore). simpl in Hi. subst j.
    rewrite Hb in Hb'. injection Hb' as <-. split; [|exact Hbefore].
    rewrite classify_agm_board in Hts by assumption.
    destruct (PyStr.contains "b" (PyStr.lower (pages (id b)))) eqn:Hacr; [reflexivity|].
    destruct (PyStr.contains "board" (PyStr.lower (pages (id b)))) eqn:Hboard;
      [|simpl in Hts; congruence].
    apply contains_first_char in Hboard. congruence.
  - intros [Hacr Hbefore]. exists i, b. repeat split; try assumption.
    rewrite classify_agm_board, Hacr by assumption. simpl.
    now destruct (PyStr.contains "board" (PyStr.lower (pages (id b)))).
Qed.

Lemma agm_matches_board_through_acronym_witness :
  Forall (fun b => description b = "") Scenario.week_plain
  ∧ Scenario.week_plain !! 1%nat = Some Scenario.agm_booking
  ∧ title Scenario.agm_booking = "Annual General Meeting"
  ∧ (1%nat ∈ search_result_refs Scenario.pages (Lst ["board"]) Scenario.week_plain
     ↔ PyStr.contains "b" (PyStr.lower (Scenario.pages (id Scenario.agm_booking))) = true
       ∧ ∀ j bj, (j < 1)%nat → Scenario.week_plain !! j = Some bj →
                 snd (classify Scenario.pages "board" bj) = false).
Proof.
  assert (Hdesc : Forall (fun b => description b = "") Scenario.week_plain)
    by (repeat constructor).
  split; [exact Hdesc|]. split; [reflexivity|]. split; [reflexivity|].
  exact (agm_matches_board_through_acronym Scenario.pages Scenario.week_plain
           1%nat Scenario.agm_booking Hdesc eq_refl eq_refl).
Defined.


(** * Further properties of the code *)

(** ** [get_bookings]: errors, and where the room names go *)

Section MoreCollation.
Variable reg : gmap string RoomInfo.
Variable pages : Z → string.

Lemma for_each_collate_raises gd (known : list RawBooking) (e : RawBooking)
    (later : list RawBooking) (tr : list Z) :
  Forall (fun x => raw_title x ∉ reserved_titles) (known ++ e :: later) →
  Forall (fun x => is_Some (reg !! raw_color x)) known →
  reg !! raw_color e = None →
  for_each (collate_step reg pages gd) (known ++ e :: later) [] tr
  = (KeyError (raw_color e), tr ++ requested gd known).
Proof.
  intros Hreal Hknown He.
  apply Forall_app in Hreal as [Hreal1 Hreal2].
  apply Forall_cons in Hreal2 as [Hreal_e _].
  rewrite for_each_app, for_each_collate_ok by assumption.
  simpl. unfold bind. now rewrite collate_step_unknown by assumption.
Qed.

(** X1. A colour that is not in the registry: [get_bookings] raises
    [KeyError] for the colour of the first non-placeholder entry that has
    one, returns no partial list, and has requested descriptions for the
    entries before it only; [search] raises the same error before any
    request. *)
Theorem get_bookings_raises_on_first_unknown_colour
    (raw known later : list RawBooking) (e : RawBooking) gd
    (st : search_terms) (tr : list Z) :
  real_entries raw = known ++ e :: later →
  Forall (fun x => is_Some (reg !! raw_color x)) known →
  reg !! raw_color e = None →
  get_bookings reg pages raw gd tr
  = (KeyError (raw_color e), tr ++ requested gd known)
  ∧ search reg pages st raw tr = (KeyError (raw_color e), tr).
Proof.
  intros Hsplit Hknown He.
  assert (Hrun : ∀ gd', get_bookings reg pages raw gd' tr
                        = (KeyError (raw_color e), tr ++ requested gd' known)).
  { intros gd'. unfold get_bookings, bind.
    rewrite for_each_collate_real, Hsplit.
    rewrite for_each_collate_raises; try assumption; [reflexivity|].
    rewrite <- Hsplit. apply real_entries_real. }
  split; [apply Hrun|].
  unfold search, bind. rewrite Hrun. simpl. now rewrite app_nil_r.
Qed.

(** Grouping a list by a predicate only rearranges the concatenation. *)
Lemma concat_map_partition {A B} (P : A → Prop) `{!∀ x, Decision (P x)}
    (g : A → list B) (l : list A) :
  concat (map g l)
  ≡ₚ concat (map g (filter P l)) ++ concat (map g (filter (fun x => ¬ P x) l)).
Proof.
  induction l as [|x l IH]; [reflexivity|]. simpl.
  destruct (decide (P x)) as [HP|HP].
  - rewrite (filter_cons_True P) by assumption.
    rewrite (filter_cons_False (fun x => ¬ P x)) by tauto.
    simpl. rewrite <- app_assoc. now apply Permutation_app_head.
  - rewrite (filter_cons_False P) by assumption.
    rewrite (filter_cons_True (fun x => ¬ P x)) by assumption.
    simpl. rewrite IH. apply Permutation_app_swap_app.
Qed.

(** The groups of the first entries are the entries, rearranged. *)
Lemma groups_permutation (entries : list RawBooking) :
  concat (map (fun f => same_key (key_of_raw f) entries) (first_entries entries))
  ≡ₚ entries.
Proof.
  induction entries as [|e r IH]; [reflexivity|].
  simpl first_entries. simpl map. simpl concat.
  unfold same_key at 1. rewrite filter_cons_True by reflexivity.
  fold (same_key (key_of_raw e) r). simpl. apply Permutation_skip.
  rewrite <- IH at 3.
  rewrite (concat_map_partition (fun f => key_of_raw f = key_of_raw e)
             (fun f => same_key (key_of_raw f) r) (first_entries r)).
  apply Permutation_app.
  - fold (same_key (key_of_raw e) (first_entries r)).
    rewrite same_key_first_entries.
    destruct (same_key (key_of_raw e) r) as [|f l] eqn:Hs; [reflexivity|].
    simpl. rewrite app_nil_r.
    assert (Hf : f ∈ same_key (key_of_raw e) r) by (rewrite Hs; left).
    apply list_elem_of_filter in Hf as [Hf _]. now rewrite Hf, Hs.
  - apply Permutation_refl'. f_equal. apply map_ext_in. intros f Hf.
    apply list_elem_of_In, list_elem_of_filter in Hf as [Hne _].
    unfold same_key. now rewrite filter_cons_False by congruence.
Qed.

(** X2. Every non-placeholder entry gives its room name to exactly one
    Booking: the room lists of the output, put end to end, are the room
    names of those entries, rearranged (nothing lost, nothing doubled). *)
Theorem get_bookings_rooms_account_for_entries
    (raw : list RawBooking) gd (tr tr' : list Z) (out : list Booking) :
  get_bookings reg pages raw gd tr = (Ok out, tr') →
  concat (map rooms out) ≡ₚ map (resolved_room reg) (real_entries raw).
Proof.
  intros Hrun. apply get_bookings_returns in Hrun as [-> _].
  unfold collated. rewrite map_map. simpl.
  rewrite <- (groups_permutation (real_entries raw)) at 2.
  rewrite concat_map, map_map. reflexivity.
Qed.

End MoreCollation.

Lemma get_bookings_raises_on_first_unknown_colour_witness :
  real_entries [Scenario.yoga_hall_a; Cases.blocked; Cases.stranger; Scenario.agm]
  = [Scenario.yoga_hall_a] ++ Cases.stranger :: [Scenario.agm]
  ∧ Forall (fun x => is_Some (Scenario.registry !! raw_color x)) [Scenario.yoga_hall_a]
  ∧ Scenario.registry !! raw_color Cases.stranger = None
  ∧ get_bookings Scenario.registry Scenario.pages
      [Scenario.yoga_hall_a; Cases.blocked; Cases.stranger; Scenario.agm] true []
    = (KeyError "#0f0", [1])
  ∧ search Scenario.registry Scenario.pages (Str "yoga")
      [Scenario.yoga_hall_a; Cases.blocked; Cases.stranger; Scenario.agm] []
    = (KeyError "#0f0", []).
Proof.
  assert (Hsplit : real_entries [Scenario.yoga_hall_a; Cases.blocked; Cases.stranger;
                                 Scenario.agm]
                   = [Scenario.yoga_hall_a] ++ Cases.stranger :: [Scenario.agm])
    by (vm_compute; reflexivity).
  assert (Hknown : Forall (fun x => is_Some (Scenario.registry !! raw_color x))
                     [Scenario.yoga_hall_a])
    by (repeat constructor; exists Scenario.hall_a; vm_compute; reflexivity).
  assert (Hnone : Scenario.registry !! raw_color Cases.stranger = None)
    by (vm_compute; reflexivity).
  split; [exact Hsplit|]. split; [exact Hknown|]. split; [exact Hnone|].
  exact (get_bookings_raises_on_first_unknown_colour Scenario.registry Scenario.pages
           _ _ _ _ true (Str "yoga") [] Hsplit Hknown Hnone).
Defined.

Lemma get_bookings_rooms_account_for_entries_witness :
  get_bookings Scenario.registry Scenario.pages Scenario.week true []
  = (Ok Scenario.week_collated, [1; 3; 2; 4])
  ∧ concat (map rooms Scenario.week_collated)
    ≡ₚ map (resolved_room Scenario.registry) (real_entries Scenario.week).
Proof.
  assert (Hrun : get_bookings Scenario.registry Scenario.pages Scenario.week true []
                 = (Ok Scenario.week_collated, [1; 3; 2; 4]))
    by (vm_compute; reflexivity).
  split; [exact Hrun|].
  exact (get_bookings_rooms_account_for_entries _ _ _ _ _ _ _ Hrun).
Defined.


(** ** [search]: the description requests *)

Section Requests.
Variable pages : Z → string.













End Requests.





(** ** [search]: what it returns *)

Section Results.
Variable pages : Z → string.

Lemma fresh_tracks (bs : list Booking) : Forall2 (tracks pages) bs bs.
Proof.
  apply Forall2_same_length_lookup_2; [reflexivity|].
  intros i x y Hx Hy. left. congruence.
Qed.

(** Over a freshly collated list the match lists are the references of
    the discoveries, tier by tier. *)
Lemma search_matches_discovered (st : search_terms) (bs : list Booking) :
  Forall (fun b => description b = "") bs →
  search_matches pages st bs
  = {| confident_matches :=
         map ref_of (of_tier Confident (discover pages (terms_of st) bs));
       somewhat_sure_matches :=
         map ref_of (of_tier Possible (discover pages (terms_of st) bs)) |}.
Proof.
  intros Hdesc. unfold search_matches, search_refs.
  destruct (search_loop_tracks pages bs (terms_of st) Hdesc bs
              {| confident_matches := []; somewhat_sure_matches := [] |} [] []
              (fresh_tracks bs))
    as (items' & tr' & Hloop & _ & _).
  { intros ev Hev. inversion Hev. }
  rewrite Hloop.
  pose proof (foldl_record_confident
                {| confident_matches := []; somewhat_sure_matches := [] |}
                (discover pages (terms_of st) bs)) as Hc.
  pose proof (foldl_record_possible
                {| confident_matches := []; somewhat_sure_matches := [] |}
                (discover pages (terms_of st) bs)) as Hp.
  destruct (foldl record_event _ _) as [cs ps]. simpl in Hc, Hp. now subst.
Qed.

Lemma discover_refs (terms : list string) (bs : list Booking) (ev : discovery) :
  Forall (fun b => description b = "") bs →
  ev ∈ discover pages terms bs →
  bs !! ref_of ev = Some (booking_of ev).
Proof.
  intros Hdesc Hev.
  destruct (search_loop_tracks pages bs terms Hdesc bs
              {| confident_matches := []; somewhat_sure_matches := [] |} [] []
              (fresh_tracks bs))
    as (items' & tr' & _ & _ & Hall).
  { intros ev' Hev'. inversion Hev'. }
  now apply Hall.
Qed.

(** X6. Every Booking [search] returns is one of the collated Bookings,
    with the description of its page filled in: no Booking is made up,
    and none is returned without its description. *)
Theorem search_returns_collated_bookings_with_descriptions
    (reg : gmap string RoomInfo) (st : search_terms) (raw : list RawBooking)
    (tr tr0 : list Z) (bs : list Booking) :
  get_bookings reg pages raw false tr = (Ok bs, tr0) →
  ∃ out tr',
    search reg pages st raw tr = (Ok out, tr')
    ∧ Forall (fun b => description b = pages (id b)
                       ∧ set_description "" b ∈ bs) out.
Proof.
  intros Hrun.
  assert (Hdesc : Forall (fun b => description b = "") bs).
  { apply get_bookings_returns in Hrun as [-> _]. apply collated_plain_descriptions. }
  destruct (search_in_discovers pages st bs tr0 Hdesc) as [tr' Hsearch].
  eexists _, tr'. unfold search, bind. rewrite Hrun. split; [exact Hsearch|].
  assert (Hone : ∀ t, Forall (fun b => description b = pages (id b)
                                       ∧ set_description "" b ∈ bs)
                        (matches_of pages t (terms_of st) bs)).
  { intros t. unfold matches_of. apply Forall_forall. intros b Hb.
    apply list_elem_of_fmap in Hb. destruct Hb as (ev & -> & Hev).
    apply list_elem_of_filter in Hev as [_ Hev].
    apply discover_refs in Hev; [|assumption].
    split; [reflexivity|].
    assert (Hin : booking_of ev ∈ bs) by (apply list_elem_of_lookup; eauto).
    rewrite Forall_forall in Hdesc. specialize (Hdesc _ Hin).
    destruct (booking_of ev) as [i t' s0 e0 r0 d0]. simpl in Hdesc. subst d0.
    exact Hin. }
  apply Forall_app. split; apply Hone.
Qed.


Lemma contains_empty (s : string) : PyStr.contains "" s = true.
Proof. destruct s; reflexivity. Qed.

(** A term that is in every title: every object is requested, gets its
    description and is a confident match, in order. *)
Lemma scan_term_in_every_title (term acr : string) (items : list Booking) :
  Forall (fun it => PyStr.contains (PyStr.lower term) (PyStr.lower (title it)) = true)
         items →
  ∀ (off : nat) (m : matches) (tr : list Z),
  scan pages term acr off items m tr
  = (Ok (map (fun it => set_description (pages (id it)) it) items,
         {| confident_matches := confident_matches m ++ seq off (length items);
            somewhat_sure_matches := somewhat_sure_matches m |}),
     tr ++ map id items).
Proof.
  induction 1 as [|item rest Hitem _ IH]; intros off m tr.
  - simpl. unfold ret. rewrite !app_nil_r. now destruct m.
  - simpl scan. unfold match_item. rewrite Hitem.
    unfold bind, get_description, ret. rewrite IH. simpl.
    now rewrite <- !app_assoc.
Qed.

Lemma deref_seq (pre items : list Booking) :
  deref (pre ++ items) (seq (length pre) (length items)) = items.
Proof.
  revert pre. induction items as [|item rest IH]; intros pre; [reflexivity|].
  simpl. unfold deref in *. simpl.
  rewrite lookup_app_r, Nat.sub_diag by lia. simpl. f_equal.
  specialize (IH (pre ++ [item])).
  rewrite <- app_assoc, length_app in IH. simpl in IH.
  now rewrite Nat.add_1_r in IH.
Qed.

(** X7. The empty search term is in every title: [search("")] returns
    every collated Booking once, in collation order, as a confident match,
    and requests every description, in that order. *)
Theorem search_empty_term_returns_everything
    (reg : gmap string RoomInfo) (raw : list RawBooking)
    (tr tr0 : list Z) (bs : list Booking) :
  get_bookings reg pages raw false tr = (Ok bs, tr0) →
  search reg pages (Str "") raw tr
  = (Ok (map (fun b => set_description (pages (id b)) b) bs), tr ++ map id bs).
Proof.
  intros Hrun.
  destruct (get_bookings_returns _ _ _ _ _ _ _ Hrun) as [_ Htr0].
  simpl in Htr0. rewrite app_nil_r in Htr0. subst tr0.
  unfold search, search_in, search_refs, bind. rewrite Hrun.
  cbn [terms_of search_loop]. unfold bind.
  rewrite scan_term_in_every_title
    by (apply Forall_forall; intros b _; apply contains_empty).
  unfold ret. simpl confident_matches. simpl somewhat_sure_matches.
  rewrite app_nil_r. f_equal. f_equal.
  rewrite <- (length_map (fun b => set_description (pages (id b)) b) bs).
  apply (deref_seq []).
Qed.





Lemma discover_app (terms1 terms2 : list string) (bs : list Booking) :
  discover pages (terms1 ++ terms2) bs
  = discover pages terms1 bs ++ discover pages terms2 bs.
Proof. unfold discover. apply flat_map_app. Qed.

(** X9. Caching descriptions from one term to the next never changes
    what matches: the confident list of a search for several terms is the
    confident lists of the one-term searches put end to end in term order,
    and so is the possible list (a Booking two terms match is there twice). *)
Theorem search_matches_term_by_term
    (reg : gmap string RoomInfo) (terms : list string) (raw : list RawBooking)
    (tr tr0 : list Z) (bs : list Booking) :
  get_bookings reg pages raw false tr = (Ok bs, tr0) →
  confident_matches (search_matches pages (Lst terms) bs)
  = flat_map (fun term => confident_matches (search_matches pages (Str term) bs)) terms
  ∧ somewhat_sure_matches (search_matches pages (Lst terms) bs)
    = flat_map (fun term => somewhat_sure_matches (search_matches pages (Str term) bs))
        terms.
Proof.
  intros Hrun.
  assert (Hdesc : Forall (fun b => description b = "") bs).
  { apply get_bookings_returns in Hrun as [-> _]. apply collated_plain_descriptions. }
  rewrite search_matches_discovered by assumption. cbn [terms_of].
  simpl confident_matches. simpl somewhat_sure_matches.
  induction terms as [|term terms [IHc IHp]]; [split; reflexivity|].
  change (term :: terms) with ([term] ++ terms).
  rewrite discover_app. unfold of_tier in *.
  rewrite !filter_app, !map_app, IHc, IHp.
  simpl flat_map. rewrite (search_matches_discovered (Str term)) by assumption.
  split; reflexivity.
Qed.

End Results.

Lemma search_returns_collated_bookings_with_descriptions_witness :
  get_bookings Scenario.registry Scenario.pages Scenario.week false []
  = (Ok Scenario.week_plain, [])
  ∧ ∃ out tr',
      search Scenario.registry Scenario.pages (Lst ["yoga"; "board"]) Scenario.week []
      = (Ok out, tr')
      ∧ Forall (fun b => description b = Scenario.pages (id b)
                         ∧ set_description "" b ∈ Scenario.week_plain) out.
Proof.
  assert (Hrun : get_bookings Scenario.registry Scenario.pages Scenario.week false []
                 = (Ok Scenario.week_plain, []))
    by (vm_compute; reflexivity).
  split; [exact Hrun|].
  exact (search_returns_collated_bookings_with_descriptions Scenario.pages
           Scenario.registry (Lst ["yoga"; "board"]) Scenario.week [] []
           Scenario.week_plain Hrun).
Defined.

Lemma search_empty_term_returns_everything_witness :
  get_bookings Scenario.registry Scenario.pages Scenario.week false []
  = (Ok Scenario.week_plain, [])
  ∧ search Scenario.registry Scenario.pages (Str "") Scenario.week []
    = (Ok (map (fun b => set_description (Scenario.pages (id b)) b) Scenario.week_plain),
       [] ++ map id Scenario.week_plain).
Proof.
  assert (Hrun : get_bookings Scenario.registry Scenario.pages Scenario.week false []
                 = (Ok Scenario.week_plain, []))
    by (vm_compute; reflexivity).
  split; [exact Hrun|].
  exact (search_empty_term_returns_everything Scenario.pages Scenario.registry
           Scenario.week [] [] Scenario.week_plain Hrun).
Defined.


Lemma search_matches_term_by_term_witness :
  get_bookings Scenario.registry Scenario.pages Scenario.week false []
  = (Ok Scenario.week_plain, [])
  ∧ confident_matches
      (search_matches Scenario.pages (Lst ["yoga"; "board"]) Scenario.week_plain)
    = flat_map (fun term => confident_matches
                              (search_matches Scenario.pages (Str term) Scenario.week_plain))
        ["yoga"; "board"]
  ∧ somewhat_sure_matches
      (search_matches Scenario.pages (Lst ["yoga"; "board"]) Scenario.week_plain)
    = flat_map (fun term => somewhat_sure_matches
                              (search_matches Scenario.pages (Str term) Scenario.week_plain))
        ["yoga"; "board"].
Proof.
  assert (Hrun : get_bookings Scenario.registry Scenario.pages Scenario.week false []
                 = (Ok Scenario.week_plain, []))
    by (vm_compute; reflexivity).
  split; [exact Hrun|].
  exact (search_matches_term_by_term Scenario.pages Scenario.registry
           ["yoga"; "board"] Scenario.week [] [] Scenario.week_plain Hrun).
Defined.


(** ** [format_date] *)

Lemma digit_inj (a b : Z) : digit a = digit b → a mod 10 = b mod 10.
Proof.
  unfold digit. intros Heq.
  apply (f_equal N_of_ascii) in Heq.
  rewrite !N_ascii_embedding in Heq
    by (pose proof (Z.mod_pos_bound a 10); pose proof (Z.mod_pos_bound b 10); lia).
  pose proof (Z.mod_pos_bound a 10). pose proof (Z.mod_pos_bound b 10). lia.
Qed.

Lemma two_digits_inj (a b : Z) :
  0 <= a < 100 → 0 <= b < 100 → two_digits a = two_digits b → a = b.
Proof.
  intros Ha Hb Heq. unfold two_digits in Heq. injection Heq as H1 H0.
  apply digit_inj in H1, H0.
  Z.to_euclidean_division_equations. lia.
Qed.

Lemma four_digits_inj (a b : Z) :
  0 <= a < 10000 → 0 <= b < 10000 → four_digits a = four_digits b → a = b.
Proof.
  intros Ha Hb Heq. unfold four_digits, two_digits in Heq.
  injection Heq as H3 H2 H1 H0.
  apply digit_inj in H3, H2, H1, H0.
  Z.to_euclidean_division_equations. lia.
Qed.

(** X10. The wire format of a date is 25 characters long, and two dates
    have the same wire string exactly when they agree on year, month,
    day, hour, minute and second: microseconds and the offset of an aware
    value never show (the "+00:00" is a literal). *)
Theorem format_date_wire (d1 d2 : datetime) :
  in_range d1 → in_range d2 →
  String.length (format_date d1) = 25%nat
  ∧ (format_date d1 = format_date d2
     ↔ year d1 = year d2 ∧ month d1 = month d2 ∧ day d1 = day d2
       ∧ hour d1 = hour d2 ∧ minute d1 = minute d2 ∧ second d1 = second d2).
Proof.
  intros (Hy1 & Hm1 & Hd1 & Hh1 & Hi1 & Hs1) (Hy2 & Hm2 & Hd2 & Hh2 & Hi2 & Hs2).
  split; [reflexivity|]. split.
  - unfold format_date. intros Heq. simpl in Heq.
    injection Heq as Y3 Y2 Y1 Y0 M1 M0 D1 D0 H1 H0 I1 I0 S1 S0.
    repeat split.
    + apply four_digits_inj; [lia | lia |]. unfold four_digits, two_digits. congruence.
    + apply two_digits_inj; [lia | lia |]. unfold two_digits. congruence.
    + apply two_digits_inj; [lia | lia |]. unfold two_digits. congruence.
    + apply two_digits_inj; [lia | lia |]. unfold two_digits. congruence.
    + apply two_digits_inj; [lia | lia |]. unfold two_digits. congruence.
    + apply two_digits_inj; [lia | lia |]. unfold two_digits. congruence.
  - intros (Hy & Hm & Hd & Hh & Hi & Hs). unfold format_date. congruence.
Qed.

Lemma format_date_wire_witness :
  in_range Dates.morning ∧ in_range Dates.morning_in_paris
  ∧ String.length (format_date Dates.morning) = 25%nat
  ∧ (format_date Dates.morning = format_date Dates.morning_in_paris
     ↔ year Dates.morning = year Dates.morning_in_paris
       ∧ month Dates.morning = month Dates.morning_in_paris
       ∧ day Dates.morning = day Dates.morning_in_paris
       ∧ hour Dates.morning = hour Dates.morning_in_paris
       ∧ minute Dates.morning = minute Dates.morning_in_paris
       ∧ second Dates.morning = second Dates.morning_in_paris).
Proof.
  assert (H1 : in_range Dates.morning) by (unfold in_range; simpl; lia).
  assert (H2 : in_range Dates.morning_in_paris) by (unfold in_range; simpl; lia).
  split; [exact H1|]. split; [exact H2|].
  exact (format_date_wire Dates.morning Dates.morning_in_paris H1 H2).
Defined.


(** ** [get_description]: the text it returns *)

Lemma str_app_nil (s : string) : "" +:+ s = s.
Proof. reflexivity. Qed.

Lemma str_app_cons (c : ascii) (l r : string) : String c l +:+ r = String c (l +:+ r).
Proof. reflexivity. Qed.

Lemma all_space_app (l r : string) :
  all_space (l +:+ r) = all_space l && all_space r.
Proof.
  induction l as [|c l IH]; [reflexivity|].
  rewrite str_app_cons. simpl. now rewrite IH, andb_assoc.
Qed.

Lemma lstrip_decompose (s : string) :
  ∃ l, s = l +:+ lstrip s ∧ all_space l = true.
Proof.
  induction s as [|c s (l & Hs & Hl)]; simpl.
  - exists "". split; reflexivity.
  - destruct (is_space c) eqn:Hc.
    + exists (String c l). split; [|simpl; now rewrite Hc, Hl].
      rewrite str_app_cons. now f_equal.
    + exists "". split; reflexivity.
Qed.

Lemma lstrip_head (s : string) (c : ascii) (r : string) :
  lstrip s = String c r → is_space c = false.
Proof.
  induction s as [|a s IH]; simpl; [discriminate|].
  destruct (is_space a) eqn:Ha; [exact IH|]. intros [= <- _]. exact Ha.
Qed.

Lemma rstrip_decompose (s : string) :
  ∃ r, s = rstrip s +:+ r ∧ all_space r = true.
Proof.
  induction s as [|c s (r & Hs & Hr)]; simpl.
  - exists "". split; reflexivity.
  - destruct (rstrip s) as [|c' r'] eqn:Hrs.
    + rewrite str_app_nil in Hs. subst r. destruct (is_space c) eqn:Hc.
      * exists (String c s). simpl. rewrite Hc, Hr. split; reflexivity.
      * exists s. split; [reflexivity | assumption].
    + exists r. split; [|assumption]. rewrite str_app_cons. f_equal. exact Hs.
Qed.

Lemma rstrip_last (s pre : string) (c : ascii) :
  rstrip s = pre +:+ String c "" → is_space c = false.
Proof.
  revert pre. induction s as [|a s IH]; intros pre; simpl.
  - destruct pre; discriminate.
  - destruct (rstrip s) as [|c' r'] eqn:Hrs.
    + destruct (is_space a) eqn:Ha.
      * destruct pre; discriminate.
      * destruct pre as [|p pre]; [intros [= <-]; exact Ha|].
        rewrite str_app_cons. intros [= _ Hpre]. destruct pre; discriminate.
    + destruct pre as [|p pre]; [discriminate|].
      rewrite str_app_cons. intros [= _ Hpre]. now apply (IH pre).
Qed.

Lemma rstrip_head_inv (s : string) (c : ascii) (r : string) :
  rstrip s = String c r → ∃ t, s = String c t.
Proof.
  destruct s as [|a s]; simpl; [discriminate|].
  destruct (rstrip s); [destruct (is_space a); [discriminate|]|];
    intros [= <- _]; eauto.
Qed.

Lemma lstrip_all_space (s : string) : all_space s = true → lstrip s = "".
Proof.
  induction s as [|c s IH]; simpl; [reflexivity|].
  destruct (is_space c); [exact IH | discriminate].
Qed.

Lemma strip_head (s : string) (c : ascii) (r : string) :
  strip s = String c r → is_space c = false.
Proof.
  unfold strip. intros Hs. apply rstrip_head_inv in Hs as [t Ht].
  now apply lstrip_head in Ht.
Qed.

Lemma strip_empty_iff (s : string) : strip s = "" ↔ all_space s = true.
Proof.
  unfold strip. split.
  - intros Hs. destruct (rstrip_decompose (lstrip s)) as (r & Hl & Hr).
    rewrite Hs, str_app_nil in Hl.
    destruct (lstrip_decompose s) as (l & Hsplit & Hspace).
    rewrite Hsplit, all_space_app, Hspace, Hl. exact Hr.
  - intros Hs. now rewrite lstrip_all_space.
Qed.

(** X11. What [get_description] returns: the one-space sentinel exactly
    for a page without the description label; the empty string exactly
    for a page whose description is blank; and otherwise the text between
    its leading and trailing whitespace, which starts and ends with a
    character that is not whitespace. *)
Theorem description_of_result (field : option string) :
  (description_of field = " " ↔ field = None)
  ∧ (description_of field = "" ↔ ∃ text, field = Some text ∧ all_space text = true)
  ∧ (∀ text, field = Some text →
       (∃ l r, text = l +:+ description_of field +:+ r
               ∧ all_space l = true ∧ all_space r = true)
       ∧ (∀ c rest, description_of field = String c rest → is_space c = false)
       ∧ (∀ pre c, description_of field = pre +:+ String c "" → is_space c = false)).
Proof.
  split; [|split].
  - destruct field as [text|]; simpl; split; try discriminate; try reflexivity.
    intros Hs. apply strip_head in Hs. discriminate.
  - destruct field as [text|]; simpl.
    + rewrite strip_empty_iff. split; [eauto|]. now intros (t & [= <-] & Ht).
    + split; [discriminate|]. intros (t & Ht & _). discriminate.
  - intros text ->. simpl. split; [|split].
    + destruct (lstrip_decompose text) as (l & Hl & Hls).
      destruct (rstrip_decompose (lstrip text)) as (r & Hr & Hrs).
      exists l, r. unfold strip. now rewrite <- Hr, <- Hl.
    + apply strip_head.
    + intros pre c. apply rstrip_last.
Qed.


(** ** [get_rooms_info]: what the patterns accept, and the registry *)


Lemma drop_prefix_Some (lit s r : string) :
  drop_prefix lit s = Some r → s = lit +:+ r.
Proof.
  revert s. induction lit as [|a lit IH]; intros s; simpl.
  - now intros [= ->].
  - destruct s as [|b s]; [discriminate|].
    destruct (Ascii.eqb a b) eqn:Hab; [|discriminate].
    apply Ascii.eqb_eq in Hab as <-. intros H.
    rewrite str_app_cons. f_equal. now apply IH.
Qed.


Lemma prefix_inv (a s : string) :
  String.prefix a s = true → ∃ p, s = a +:+ p.
Proof.
  revert s. induction a as [|c a IH]; intros s.
  - intros _. now exists s.
  - destruct s as [|b s]; simpl; [discriminate|].
    destruct (ascii_dec c b) as [<-|]; [|discriminate].
    intros [p ->]%IH. now exists p.
Qed.

Lemma span_spec (cls : ascii → bool) (s run rest : string) :
  span cls s = (run, rest) →
  s = run +:+ rest ∧ all_chars cls run = true
  ∧ ∀ c r, rest = String c r → cls c = false.
Proof.
  revert run rest. induction s as [|c s IH]; intros run rest; simpl.
  - intros [= <- <-]. repeat split. discriminate.
  - destruct (cls c) eqn:Hc.
    + destruct (span cls s) as [run' rest'] eqn:Hs. intros [= <- <-].
      destruct (IH _ _ eq_refl) as (-> & Hall & Hrest).
      repeat split; [|assumption]. simpl. now rewrite Hc, Hall.
    + intros [= <- <-]. repeat split. now intros c' r [= <- _].
Qed.


Section Patterns.
Variables (before : string) (cls : ascii → bool) (after : string).

Lemma match_here_sound (s g : string) :
  match_here before cls after s = Some g →
  ∃ post, s = before +:+ g +:+ after +:+ post
          ∧ g ≠ "" ∧ all_chars cls g = true.
Proof.
  unfold match_here.
  destruct (drop_prefix before s) as [s1|] eqn:Hpre; [|discriminate].
  apply drop_prefix_Some in Hpre as ->.
  destruct (span cls s1) as [run rest] eqn:Hspan.
  apply span_spec in Hspan as (-> & Hall & _).
  destruct run as [|c run]; [discriminate|]. simpl.
  destruct (String.prefix after rest) eqn:Hafter; [|discriminate].
  apply prefix_inv in Hafter as [post ->]. intros [= <-].
  exists post. repeat split; [discriminate | assumption].
Qed.


Lemma first_match_sound (s g : string) :
  first_match before cls after s = Some g → occurs before cls after g s.
Proof.
  induction s as [|c s IH]; simpl.
  - destruct (match_here before cls after "") as [g'|] eqn:Hm; [|discriminate].
    intros [= ->]. apply match_here_sound in Hm as (post & Hs & Hg & Hall).
    exists "", post. now rewrite str_app_nil.
  - destruct (match_here before cls after (String c s)) as [g'|] eqn:Hm.
    + intros [= ->]. apply match_here_sound in Hm as (post & Hs & Hg & Hall).
      exists "", post. now rewrite str_app_nil.
    + intros (pre & post & -> & Hg & Hall)%IH.
      exists (String c pre), post. now rewrite str_app_cons.
Qed.


End Patterns.

Lemma int_of_digits_nonneg (ds : string) (acc : Z) :
  0 ≤ acc → all_chars PyStr.is_digit ds = true → 0 ≤ int_of_digits acc ds.
Proof.
  revert acc. induction ds as [|c ds IH]; intros acc Hacc; simpl; [easy|].
  intros [Hc Hds]%andb_true_iff. apply IH; [|assumption].
  unfold PyStr.is_digit in Hc. apply andb_true_iff in Hc as [Hc _].
  apply N.leb_le in Hc. lia.
Qed.

Lemma room_id_of_returns (s : string) (n : Z) :
  room_id_of s = Returns n →
  ∃ ds, occurs "setRoom(" PyStr.is_digit ")" ds s ∧ n = int_of_digits 0 ds.
Proof.
  unfold room_id_of.
  destruct (first_match _ _ _ s) as [ds|] eqn:Hm; [|discriminate].
  intros [= <-]. exists ds. split; [|reflexivity]. now apply first_match_sound.
Qed.


Lemma colour_of_returns (s colour : string) :
  colour_of s = Returns colour →
  ∃ hex, occurs "background-color:#" is_hex "!important;" hex s
         ∧ colour = String "#" hex.
Proof.
  unfold colour_of.
  destruct (first_match _ _ _ s) as [hex|] eqn:Hm; [|discriminate].
  intros [= <-]. exists hex. split; [|reflexivity]. now apply first_match_sound.
Qed.


(** X12. An element the loop accepts: its [onclick] holds
    [setRoom(<digits>)] and the id is the number those digits spell (not
    negative); its [style] holds [background-color:<colour>!important;]
    where the colour is [#] and at least one hexadecimal digit, kept with
    the case it has; the name is the text of the element. *)
Theorem room_of_div_reads_id_colour_and_text (div : room_div) (info : RoomInfo) :
  room_of_div div = Returns info →
  (∃ ds, occurs "setRoom(" PyStr.is_digit ")" ds (onclick div)
         ∧ room_id info = int_of_digits 0 ds ∧ 0 ≤ room_id info)
  ∧ (∃ st hex, style div = Some st
               ∧ occurs "background-color:#" is_hex "!important;" hex st
               ∧ room_colour info = String "#" hex)
  ∧ room_name info = div_text div.
Proof.
  unfold room_of_div.
  destruct (room_id_of (onclick div)) as [n|] eqn:Hid; [|discriminate].
  destruct (style div) as [st|]; [|discriminate].
  destruct (colour_of st) as [colour|] eqn:Hcol; [|discriminate].
  intros [= <-]. simpl.
  apply room_id_of_returns in Hid as (ds & Hocc & ->).
  apply colour_of_returns in Hcol as (hex & Hocc' & ->).
  split; [|split; [|reflexivity]].
  - exists ds. repeat split; [assumption|].
    destruct Hocc as (_ & _ & _ & _ & Hall). now apply int_of_digits_nonneg.
  - exists st, hex. repeat split. assumption.
Qed.


(** The loop, from any dictionary on: the elements before it all parse,
    and a colour maps to the last of them that has it, or else to what it
    mapped to before. *)
Lemma fill_rooms_info_returns (divs : list room_div) :
  ∀ (acc reg : gmap string RoomInfo),
    fill_rooms_info divs acc = Returns reg →
    ∃ infos,
      Forall2 (fun d i => room_of_div d = Returns i) divs infos
      ∧ ∀ c, reg !! c
             = from_option Some (acc !! c)
                 (last (filter (fun i => room_colour i = c) infos)).
Proof.
  induction divs as [|d divs IH]; intros acc reg; simpl.
  - intros [= <-]. exists []. split; [constructor | reflexivity].
  - destruct (room_of_div d) as [i|] eqn:Hd; [|discriminate].
    intros (infos & Hall & Hreg)%IH. exists (i :: infos).
    split; [now constructor|]. intros c. rewrite Hreg.
    destruct (decide (room_colour i = c)) as [Hc|Hc].
    + rewrite (filter_cons_True (fun i => room_colour i = c)) by assumption.
      rewrite last_cons.
      destruct (last (filter _ infos)); [reflexivity|]. simpl.
      rewrite Hc. apply lookup_insert_eq.
    + rewrite (filter_cons_False (fun i => room_colour i = c)) by assumption.
      destruct (last (filter _ infos)); [reflexivity|]. simpl.
      now apply lookup_insert_ne.
Qed.


(** X14. The registry [get_rooms_info] returns: every element of the
    colour list parsed, and a colour maps to the last element painted in
    it (an earlier room of the same colour is overwritten, silently);
    colours no element has are not keys. *)
Theorem get_rooms_info_last_of_a_colour_wins
    (divs : list room_div) (reg : gmap string RoomInfo) :
  get_rooms_info (Some divs) = Returns reg →
  ∃ infos,
    Forall2 (fun d i => room_of_div d = Returns i) divs infos
    ∧ ∀ c, reg !! c = last (filter (fun i => room_colour i = c) infos).
Proof.
  simpl. intros (infos & Hall & Hreg)%fill_rooms_info_returns.
  exists infos. split; [assumption|]. intros c. rewrite Hreg, lookup_empty.
  now destruct (last _).
Qed.


(** X16. The room names of [get_bookings], with the registry of
    [get_rooms_info]: every room of every Booking is the text of an
    element of the colour list, one that parsed and is painted in the
    colour of a raw entry. *)
Theorem get_bookings_room_names_are_element_texts
    (pages : Z → string) (divs : list room_div) (reg : gmap string RoomInfo)
    (raw : list RawBooking) gd (tr tr' : list Z) (out : list Booking) :
  get_rooms_info (Some divs) = Returns reg →
  get_bookings reg pages raw gd tr = (Ok out, tr') →
  Forall (fun b =>
    Forall (fun room =>
      ∃ e d info, e ∈ raw ∧ d ∈ divs
                  ∧ room_of_div d = Returns info
                  ∧ room_colour info = raw_color e
                  ∧ room = div_text d) (rooms b)) out.
Proof.
  simpl. intros (infos & Hall & Hreg)%fill_rooms_info_returns Hrun.
  pose proof (get_bookings_ok_inv _ _ _ _ _ _ _ Hrun) as Hknown.
  apply get_bookings_returns in Hrun as [-> _].
  apply Forall_forall. intros b Hb.
  apply collated_elem in Hb as (first & later & _ & ->). simpl.
  apply Forall_forall. intros room Hroom.
  apply list_elem_of_fmap in Hroom as (e & -> & He).
  apply list_elem_of_filter in He as [_ He].
  unfold colours_known in Hknown. rewrite Forall_forall in Hknown.
  destruct (Hknown e He) as [info Hinfo].
  apply list_elem_of_filter in He as [_ He].
  pose proof Hinfo as Hlast. rewrite Hreg, lookup_empty in Hlast.
  destruct (last (filter _ infos)) as [i|] eqn:Hl; [|discriminate].
  simpl in Hlast. injection Hlast as ->.
  apply last_Some_elem_of, list_elem_of_filter in Hl as [Hcol Hin].
  apply list_elem_of_lookup in Hin as [k Hk].
  destruct (Forall2_lookup_r _ _ _ _ _ Hall Hk) as (d & Hd & Hparse).
  exists e, d, info. split; [assumption|].
  split; [eapply list_elem_of_lookup_2; eassumption|].
  split; [assumption|]. split; [assumption|].
  unfold resolved_room. rewrite Hinfo. simpl.
  revert Hparse. unfold room_of_div.
  destruct (room_id_of (onclick d)); [|discriminate].
  destruct (style d); [|discriminate].
  destruct (colour_of _); [|discriminate].
  now intros [= <-].
Qed.

Lemma room_of_div_reads_id_colour_and_text_witness :
  room_of_div Rooms.annexe = Returns Rooms.annexe_info
  ∧ (∃ ds, occurs "setRoom(" PyStr.is_digit ")" ds (onclick Rooms.annexe)
           ∧ room_id Rooms.annexe_info = int_of_digits 0 ds
           ∧ 0 ≤ room_id Rooms.annexe_info)
  ∧ (∃ st hex, style Rooms.annexe = Some st
               ∧ occurs "background-color:#" is_hex "!important;" hex st
               ∧ room_colour Rooms.annexe_info = String "#" hex)
  ∧ room_name Rooms.annexe_info = div_text Rooms.annexe.
Proof.
  assert (Hparse : room_of_div Rooms.annexe = Returns Rooms.annexe_info)
    by (vm_compute; reflexivity).
  split; [exact Hparse|].
  exact (room_of_div_reads_id_colour_and_text _ _ Hparse).
Defined.

Lemma get_rooms_info_last_of_a_colour_wins_witness :
  get_rooms_info (Some [Rooms.main_hall; Rooms.annexe; Rooms.stage])
  = Returns (<["#12aB9f" := Rooms.annexe_info]> (<["#fff" := Rooms.stage_info]> ∅))
  ∧ ∃ infos,
      Forall2 (fun d i => room_of_div d = Returns i)
        [Rooms.main_hall; Rooms.annexe; Rooms.stage] infos
      ∧ ∀ c, (<["#12aB9f" := Rooms.annexe_info]> (<["#fff" := Rooms.stage_info]> ∅)
                : gmap string RoomInfo) !! c
             = last (filter (fun i => room_colour i = c) infos).
Proof.
  assert (Hrun : get_rooms_info (Some [Rooms.main_hall; Rooms.annexe; Rooms.stage])
                 = Returns (<["#12aB9f" := Rooms.annexe_info]>
                              (<["#fff" := Rooms.stage_info]> ∅)))
    by (vm_compute; reflexivity).
  split; [exact Hrun|].
  exact (get_rooms_info_last_of_a_colour_wins _ _ Hrun).
Defined.

Lemma get_bookings_room_names_are_element_texts_witness :
  get_rooms_info (Some [Rooms.main_hall; Rooms.annexe])
  = Returns (<["#12aB9f" := Rooms.annexe_info]> (<["#fff" := Rooms.main_hall_info]> ∅))
  ∧ get_bookings (<["#12aB9f" := Rooms.annexe_info]> (<["#fff" := Rooms.main_hall_info]> ∅))
      Scenario.pages [Rooms.gala; Cases.blocked; Rooms.gala_annexe] false []
    = (Ok [ {| id := 20; title := "Gala"; start := "T1"; end_ := "T2";
               rooms := ["Main Hall"; "Annexe"]; description := "" |} ], [])
  ∧ Forall (fun b =>
      Forall (fun room =>
        ∃ e d info, e ∈ [Rooms.gala; Cases.blocked; Rooms.gala_annexe]
                    ∧ d ∈ [Rooms.main_hall; Rooms.annexe]
                    ∧ room_of_div d = Returns info
                    ∧ room_colour info = raw_color e
                    ∧ room = div_text d) (rooms b))
      [ {| id := 20; title := "Gala"; start := "T1"; end_ := "T2";
           rooms := ["Main Hall"; "Annexe"]; description := "" |} ].
Proof.
  assert (Hreg : get_rooms_info (Some [Rooms.main_hall; Rooms.annexe])
                 = Returns (<["#12aB9f" := Rooms.annexe_info]>
                              (<["#fff" := Rooms.main_hall_info]> ∅)))
    by (vm_compute; reflexivity).
  assert (Hrun : get_bookings
                   (<["#12aB9f" := Rooms.annexe_info]>
                      (<["#fff" := Rooms.main_hall_info]> ∅))
                   Scenario.pages [Rooms.gala; Cases.blocked; Rooms.gala_annexe] false []
                 = (Ok [ {| id := 20; title := "Gala"; start := "T1"; end_ := "T2";
                            rooms := ["Main Hall"; "Annexe"]; description := "" |} ], []))
    by (vm_compute; reflexivity).
  split; [exact Hreg|]. split; [exact Hrun|].
  exact (get_bookings_room_names_are_element_texts _ _ _ _ _ _ _ _ Hreg Hrun).
Defined.


(** ** [search]: why a Booking is in a match list *)

Section Justified.
Variable pages : Z → string.

Lemma classify_tiers (term : string) (b : Booking) (t : tier) :
  t ∈ fst (classify pages term b) →
  match t with
  | Confident =>
      PyStr.contains (PyStr.lower term) (PyStr.lower (title b)) = true
      ∨ PyStr.contains (PyStr.lower (acronym term)) (PyStr.lower (title b)) = true
  | Possible =>
      PyStr.contains (PyStr.lower term) (PyStr.lower (title b)) = false
      ∧ (PyStr.contains (PyStr.lower term) (PyStr.lower (pages (id b))) = true
         ∨ (PyStr.contains (PyStr.lower (acronym term)) (PyStr.lower (title b)) = false
            ∧ PyStr.contains (PyStr.lower (acronym term))
                (PyStr.lower (pages (id b))) = true))
  end.
Proof.
  unfold classify.
  destruct (PyStr.contains (PyStr.lower term) (PyStr.lower (title b))) eqn:Ht.
  - simpl. intros ->%list_elem_of_singleton. now left.
  - destruct (PyStr.contains (PyStr.lower term) (PyStr.lower (pages (id b)))) eqn:Hd;
      destruct (PyStr.contains (PyStr.lower (acronym term)) (PyStr.lower (title b)))
        eqn:Ha;
      destruct (PyStr.contains (PyStr.lower (acronym term))
                  (PyStr.lower (pages (id b)))) eqn:Hb;
      simpl; intros Hin; set_unfold; destruct t;
      intuition (discriminate || auto).
Qed.

Lemma discover_term_tiers (term : string) (bs : list Booking) :
  ∀ off ev, ev ∈ discover_term pages term off bs →
            tier_of ev ∈ fst (classify pages term (booking_of ev)).
Proof.
  induction bs as [|b rest IH]; intros off ev; simpl; [inversion 1|].
  intros [Hev|Hev]%elem_of_app.
  - apply list_elem_of_fmap in Hev as (t & -> & Ht). exact Ht.
  - destruct (snd (classify pages term b)); [inversion Hev | eapply IH, Hev].
Qed.

(** A reference in a match list of a freshly collated list: the Booking
    it denotes, the term it was found for, and its tier among those of
    the classification. *)
Lemma search_matches_elem (st : search_terms) (bs : list Booking) (t : tier) (i : nat) :
  Forall (fun b => description b = "") bs →
  i ∈ map ref_of (of_tier t (discover pages (terms_of st) bs)) →
  ∃ b term, bs !! i = Some b ∧ term ∈ terms_of st
            ∧ t ∈ fst (classify pages term b).
Proof.
  intros Hdesc Hi.
  apply list_elem_of_fmap in Hi as (ev & -> & Hev).
  apply list_elem_of_filter in Hev as [<- Hev].
  pose proof (discover_refs pages _ _ _ Hdesc Hev) as Href.
  unfold discover in Hev.
  apply list_elem_of_In, in_flat_map in Hev as (term & Hterm & Hev).
  apply list_elem_of_In in Hterm, Hev.
  exists (booking_of ev), term. repeat split; [assumption..|].
  eapply discover_term_tiers, Hev.
Qed.


Lemma contains_in_space (n : string) :
  PyStr.contains n " " = true → n = "" ∨ n = " ".
Proof.
  destruct n as [|a n]; [now left|]. simpl.
  destruct (ascii_dec a " ") as [->|]; [|discriminate].
  destruct n; [now right | discriminate].
Qed.

Lemma lower_char_space (c : ascii) : PyStr.lower_char c = " "%char → c = " "%char.
Proof.
  destruct c as [[] [] [] [] [] [] [] []]; vm_compute; congruence.
Qed.

Lemma lower_empty (n : string) : PyStr.lower n = "" → n = "".
Proof. now destruct n. Qed.

Lemma lower_space (n : string) : PyStr.lower n = " " → n = " ".
Proof.
  destruct n as [|c n]; [discriminate|]. simpl.
  intros [= Hc Hn]. apply lower_char_space in Hc as ->.
  now apply lower_empty in Hn as ->.
Qed.

Lemma upper_char_word (c : ascii) :
  PyStr.is_word c = true → PyStr.upper_char c ≠ " "%char.
Proof.
  destruct c as [[] [] [] [] [] [] [] []]; vm_compute; congruence.
Qed.

Lemma findall_word_starts_head (s : string) :
  ∀ prev c r, PyStr.findall_word_starts prev s = String c r → PyStr.is_word c = true.
Proof.
  induction s as [|a s IH]; intros prev c r; simpl; [discriminate|].
  destruct (PyStr.is_word a) eqn:Ha; destruct prev; simpl.
  - apply IH.
  - now intros [= <- _].
  - apply IH.
  - apply IH.
Qed.

Lemma acronym_not_space (term : string) : acronym term ≠ " ".
Proof.
  unfold acronym.
  destruct (PyStr.findall_word_starts false term) as [|c r] eqn:Hf; [discriminate|].
  simpl. intros [= Hc _]. apply findall_word_starts_head in Hf.
  now apply upper_char_word in Hf.
Qed.

(** X18. The sentinel is safe: a Booking whose page has no description
    label gets the one-space string of [get_description], and is a
    possible match only when a search term is that very string. *)
Theorem search_sentinel_matches_only_a_space
    (reg : gmap string RoomInfo) (st : search_terms) (raw : list RawBooking)
    (tr tr0 : list Z) (bs : list Booking) (i : nat) (b : Booking) :
  get_bookings reg pages raw false tr = (Ok bs, tr0) →
  bs !! i = Some b →
  pages (id b) = description_of None →
  i ∈ somewhat_sure_matches (search_matches pages st bs) →
  " " ∈ terms_of st.
Proof.
  intros Hrun Hb Hpage Hi.
  assert (Hdesc : Forall (fun b => description b = "") bs).
  { apply get_bookings_returns in Hrun as [-> _]. apply collated_plain_descriptions. }
  rewrite search_matches_discovered in Hi by assumption. simpl in Hi.
  apply search_matches_elem in Hi as (b' & term & Hb' & Hterm & Ht); [|assumption].
  assert (b' = b) as -> by congruence.
  apply classify_tiers in Ht as [Hno Hwhy]. rewrite Hpage in Hwhy. simpl in Hwhy.
  destruct Hwhy as [Hin|[Hno' Hin]]; apply contains_in_space in Hin as [He|Hs].
  - rewrite He in Hno. simpl in Hno. now rewrite contains_empty in Hno.
  - apply lower_space in Hs as ->. exact Hterm.
  - rewrite He in Hno'. now rewrite contains_empty in Hno'.
  - apply lower_space in Hs. now apply acronym_not_space in Hs.
Qed.

End Justified.


Lemma search_sentinel_matches_only_a_space_witness :
  get_bookings Scenario.registry Cases3.bare_pages Scenario.week false []
  = (Ok Scenario.week_plain, [])
  ∧ Scenario.week_plain !! 0%nat = Some Cases2.week_head
  ∧ Cases3.bare_pages (id Cases2.week_head) = description_of None
  ∧ 0%nat ∈ somewhat_sure_matches
             (search_matches Cases3.bare_pages (Lst ["agm"; " "]) Scenario.week_plain)
  ∧ " " ∈ ["agm"; " "].
Proof.
  assert (Hrun : get_bookings Scenario.registry Cases3.bare_pages Scenario.week false []
                 = (Ok Scenario.week_plain, []))
    by (vm_compute; reflexivity).
  assert (Hb : Scenario.week_plain !! 0%nat = Some Cases2.week_head)
    by (vm_compute; reflexivity).
  assert (Hpage : Cases3.bare_pages (id Cases2.week_head) = description_of None)
    by reflexivity.
  assert (Hi : 0%nat ∈ somewhat_sure_matches
                 (search_matches Cases3.bare_pages (Lst ["agm"; " "])
                    Scenario.week_plain))
    by (vm_compute; apply elem_of_cons; left; reflexivity).
  split; [exact Hrun|]. split; [exact Hb|]. split; [exact Hpage|]. split; [exact Hi|].
  exact (search_sentinel_matches_only_a_space Cases3.bare_pages Scenario.registry
           (Lst ["agm"; " "]) _ _ _ _ _ _ Hrun Hb Hpage Hi).
Defined.

(** Two colour lists that fail: at an element without [style], and at an
    element whose [onclick] calls something else. *)
Example get_rooms_info_first_failure :
  get_rooms_info (Some [Rooms.main_hall; Rooms.unstyled; Rooms.show_all])
  = Raises StyleKeyError
  ∧ get_rooms_info (Some [Rooms.show_all; Rooms.unstyled]) = Raises IndexError.
Proof. split; vm_compute; reflexivity. Qed.
